(** * Air-Quality-Index: classifier, predictor and multi-city report

    A shallow embedding of [config.py], [aqi_utils.py], [predictor.py],
    [data_fetcher.py] and the report builders of [aqi_app.py].

    Numbers.  Python [int]s and finite [float]s are both embedded in [Q];
    comparisons between them are exact in Python, so the classifier is
    modelled exactly.  The arithmetic of the predictor (numpy, scikit-learn)
    is modelled in exact rational arithmetic: rounding of IEEE doubles is
    not part of the model, and numeric results are compared with [Qeq].

    Effects.  Raising is modelled by the [result] type, [try/except] by a
    match on it.  The remote feed is a state-passing function on an abstract
    [World], so that two fetches of one city may differ.  What a function
    prints is returned as a list of lines. *)

From Stdlib Require Import ZArith QArith Qfield Lqa List String Ascii Bool
  Lia Setoid Morphisms DecimalString Sorted.
Import ListNotations.

Local Open Scope Q_scope.

(** * Part I: the program *)

(** ** Python values and control *)

Module py.

(** Instances of [Exception]; [msg] is what [str(e)] returns. *)
Inductive PyException : Type :=
| Exception (msg : string)
| ValueError (msg : string).

Definition str (e : PyException) : string :=
  match e with Exception m => m | ValueError m => m end.

(** Outcome of a call that may raise. *)
Inductive result (A : Type) : Type :=
| Return (a : A)
| Raise (e : PyException).
Arguments Return {A} a.
Arguments Raise {A} e.

Definition bind {A B} (r : result A) (k : A -> result B) : result B :=
  match r with Return a => k a | Raise e => Raise e end.

(** [a < b] on numbers. *)
Definition Qltb (a b : Q) : bool := negb (Qle_bool b a).

(** [range(n)]. *)
Definition range (n : Z) : list Z := map Z.of_nat (seq 0 (Z.to_nat n)).

(** [sum(l)]: left to right from 0. *)
Definition sum (l : list Q) : Q := fold_left Qplus l 0.

(** [len(l)] as a number. *)
Definition len {A} (l : list A) : Q := inject_Z (Z.of_nat (List.length l)).

(** The scan of [max(iterable, key=...)]: the running best is replaced only
    by an item whose key is strictly greater. *)
Fixpoint max_scan {A} (key : A -> Q) (best : A) (l : list A) : A :=
  match l with
  | [] => best
  | x :: rest => max_scan key (if Qltb (key best) (key x) then x else best) rest
  end.

(** The scan of [min(iterable, key=...)]: replaced only by a strictly
    smaller key. *)
Fixpoint min_scan {A} (key : A -> Q) (best : A) (l : list A) : A :=
  match l with
  | [] => best
  | x :: rest => min_scan key (if Qltb (key x) (key best) then x else best) rest
  end.

(** ASCII letters only; other characters are left as they are. *)
Definition upper_char (c : ascii) : ascii :=
  let n := nat_of_ascii c in
  if ((97 <=? n) && (n <=? 122))%nat then ascii_of_nat (n - 32) else c.

Definition lower_char (c : ascii) : ascii :=
  let n := nat_of_ascii c in
  if ((65 <=? n) && (n <=? 90))%nat then ascii_of_nat (n + 32) else c.

Fixpoint lower (s : string) : string :=
  match s with
  | EmptyString => EmptyString
  | String c r => String (lower_char c) (lower r)
  end.

(** [s.capitalize()]: first character upper case, the rest lower case. *)
Definition capitalize (s : string) : string :=
  match s with
  | EmptyString => EmptyString
  | String c r => String (upper_char c) (lower r)
  end.

(** A [dict] with string keys, in insertion order: assigning to a key that
    is present keeps its position. *)
Fixpoint dict_set {V} (d : list (string * V)) (k : string) (v : V)
  : list (string * V) :=
  match d with
  | [] => [(k, v)]
  | (k', v') :: r =>
      if String.eqb k' k then (k', v) :: r else (k', v') :: dict_set r k v
  end.

Fixpoint dict_get {V} (d : list (string * V)) (k : string) : option V :=
  match d with
  | [] => None
  | (k', v') :: r => if String.eqb k' k then Some v' else dict_get r k
  end.

End py.

Import py.

Notation "x <- r ;; k" := (bind r (fun x => k))
  (at level 61, r at next level, right associativity).

(** ** Formatting and printing *)

Module fmt.

(** [str(n)] and [f"{n}"] for an [int]: decimal digits, with a sign when
    negative. *)
Definition str_int (z : Z) : string := NilZero.string_of_int (Z.to_int z).

(** [float(n)] of an [int] raises [OverflowError] beyond the range of a
    double; below that bound the conversion is monotone, so comparisons with
    0 and 500 are those of the integer. *)
Definition float_range (z : Z) : Prop := (Z.abs z < 2 ^ 1023)%Z.

End fmt.

(** ** numpy and scikit-learn, as far as the predictor uses them

    Library code outside the repository, modelled by its documented
    behaviour on one-feature data, in exact arithmetic. *)

Module np.

(** [np.clip(x, lo, hi)] on one element: [minimum(maximum(x, lo), hi)]. *)
Definition clip1 (lo hi x : Q) : Q :=
  let m := if Qltb x lo then lo else x in
  if Qltb hi m then hi else m.

Definition clip (a : list Q) (lo hi : Q) : list Q := map (clip1 lo hi) a.

Definition mean (a : list Q) : Q := py.sum a / len a.

(** [np.min] / [np.max] of a non-empty array given as head and tail. *)
Definition min (a0 : Q) (a : list Q) : Q :=
  fold_left (fun m x => if Qltb x m then x else m) a a0.

Definition max (a0 : Q) (a : list Q) : Q :=
  fold_left (fun m x => if Qltb m x then x else m) a a0.

End np.

Module sklearn.

(** A fitted [LinearRegression] with one feature. *)
Record LinearRegression : Type := { coef_ : Q; intercept_ : Q }.

(** Minimum-norm least-squares solution [w] of [xc * w = yc], one column:
    the normal equation, and 0 when the column is null. *)
Definition lstsq (xc yc : list Q) : Q :=
  let sxx := py.sum (map (fun x => x * x) xc) in
  if Qeq_bool sxx 0 then 0
  else py.sum (map (fun p => fst p * snd p) (combine xc yc)) / sxx.

(** [LinearRegression().fit(X, y)] with the default [fit_intercept=True]:
    centre the data, solve, recover the intercept.  An empty sample is
    refused with a [ValueError]. *)
Definition fit (X y : list Q) : result LinearRegression :=
  match X with
  | [] => Raise (ValueError "Found array with 0 sample(s) (shape=(0, 1)) while a minimum of 1 is required by LinearRegression.")
  | _ =>
      let X_offset := np.mean X in
      let y_offset := np.mean y in
      let coef := lstsq (map (fun x => x - X_offset) X)
                        (map (fun v => v - y_offset) y) in
      Return {| coef_ := coef; intercept_ := y_offset - X_offset * coef |}
  end.

Definition predict (m : LinearRegression) (X : list Q) : list Q :=
  map (fun x => x * coef_ m + intercept_ m) X.

End sklearn.

(** ** config.py *)

Module config.

(** [AQI_CATEGORIES]: (low, high, label, color). *)
Definition AQI_CATEGORIES : list (Q * Q * string * string) :=
  [ (0, 50, "Good", "#00e400");
    (51, 100, "Moderate", "#ffff00");
    (101, 150, "Unhealthy for Sensitive Groups", "#ff7e00");
    (151, 200, "Unhealthy", "#ff0000");
    (201, 300, "Very Unhealthy", "#8f3f97");
    (301, 500, "Hazardous", "#7e0023") ]%string.

Definition DEFAULT_PREDICTION_DAYS : Z := 7.
Definition PREDICTION_GROWTH_RATE : Q := 0.04.

Definition API_KEY : string := "62923ce541a74e207a652347c2bc7a817c7bc1c7".
Definition BASE_URL : string := "https://api.waqi.info/feed/".

Definition DEFAULT_COMPARISON_CITIES : list string :=
  ["Delhi"; "Beijing"; "New York"; "London"]%string.

End config.

(** ** aqi_utils.py *)

Module aqi_utils.

(** The [for ... in AQI_CATEGORIES] loop of [get_aqi_category], over an
    arbitrary table; the value after the loop is the sentinel. *)
Fixpoint scan_categories (table : list (Q * Q * string * string)) (aqi : Q)
  : string * string :=
  match table with
  | [] => ("Unknown", "gray")%string
  | (low, high, label, color) :: rest =>
      if Qle_bool low aqi && Qle_bool aqi high then (label, color)
      else scan_categories rest aqi
  end.

Definition get_aqi_category (aqi : Q) : string * string :=
  scan_categories config.AQI_CATEGORIES aqi.

Definition get_aqi_color (aqi : Q) : string := snd (get_aqi_category aqi).
Definition get_aqi_label (aqi : Q) : string := fst (get_aqi_category aqi).

(** [validate_aqi] on a value that is already a number. *)
Definition validate_aqi (aqi : Q) : bool :=
  Qle_bool 0 aqi && Qle_bool aqi 500.

(** [format_aqi_display] for an [int] reading, as the docstring types it. *)
Definition format_aqi_display (aqi : Z) (city_name : string) : string :=
  if negb (validate_aqi (inject_Z aqi)) then
    ("❌ Invalid AQI value for " ++ city_name ++ ": " ++ fmt.str_int aqi)%string
  else
    let (category, _) := get_aqi_category (inject_Z aqi) in
    ("✅ Current AQI in " ++ capitalize city_name ++ ": " ++ fmt.str_int aqi
       ++ " (" ++ category ++ ")")%string.

End aqi_utils.

(** ** predictor.py *)

Module predictor.

(** [self.growth_rate]; [self.model] is refitted by every call of
    [predict_aqi] before it is read, so no fitted state is carried from
    one call to the next. *)
Record AQIPredictor : Type := { growth_rate : Q }.

(** [growth_rate or PREDICTION_GROWTH_RATE]: [None] and a zero rate are
    both falsy. *)
Definition __init__ (growth_rate : option Q) : AQIPredictor :=
  {| growth_rate :=
       match growth_rate with
       | None => config.PREDICTION_GROWTH_RATE
       | Some g => if Qeq_bool g 0 then config.PREDICTION_GROWTH_RATE else g
       end |}.

(** [X]: the day numbers [i + 1]. *)
Definition training_X (days : Z) : list Q :=
  map (fun i => inject_Z (i + 1)) (range days).

(** [y]: [current_aqi * (1 + self.growth_rate * i)] over the same [i]. *)
Definition training_y (self : AQIPredictor) (current_aqi : Q) (days : Z)
  : list Q :=
  map (fun i => current_aqi * (1 + growth_rate self * inject_Z i))
      (range days).

Definition predict_aqi (self : AQIPredictor) (current_aqi : Q)
    (days : option Z) : result (list Q) :=
  let days := match days with
              | None => config.DEFAULT_PREDICTION_DAYS
              | Some d => d
              end in
  let X := training_X days in
  let y := training_y self current_aqi days in
  model <- sklearn.fit X y ;;
  let predictions := sklearn.predict model X in
  let predictions := np.clip predictions 0 500 in
  Return predictions.

Record prediction_summary : Type := {
  predictions : list Q;
  min_predicted : Q;
  max_predicted : Q;
  avg_predicted : Q;
  trend : string
}.

Definition get_prediction_summary (self : AQIPredictor) (current_aqi : Q)
    (days : option Z) : result prediction_summary :=
  predictions <- predict_aqi self current_aqi days ;;
  match predictions with
  | [] => Raise (ValueError "zero-size array to reduction operation minimum which has no identity")
  | first :: rest =>
      Return {| predictions := predictions;
                min_predicted := np.min first rest;
                max_predicted := np.max first rest;
                avg_predicted := np.mean predictions;
                trend := if Qltb first (last rest first)
                         then "increasing" else "decreasing" |}
  end.

(** One turn of the loop of [predict_multiple_cities]: the dictionary being
    built and the lines printed so far. *)
Definition predict_city (self : AQIPredictor) (days : option Z)
    (acc : list (string * option (list Q)) * list string)
    (item : string * option Q)
  : list (string * option (list Q)) * list string :=
  let (predictions, printed) := acc in
  let (city, aqi) := item in
  match aqi with
  | Some aqi =>
      match predict_aqi self aqi days with
      | Return p => (dict_set predictions city (Some p), printed)
      | Raise e =>
          (dict_set predictions city None,
           printed ++ [("Warning: Could not predict AQI for " ++ city ++ ": "
                          ++ str e)%string])
      end
  | None => (dict_set predictions city None, printed)
  end.

(** [predict_multiple_cities]: the returned dictionary and the printed
    lines; [city_aqi_dict] is given by its items. *)
Definition predict_multiple_cities (self : AQIPredictor)
    (city_aqi_dict : list (string * option Q)) (days : option Z)
  : list (string * option (list Q)) * list string :=
  fold_left (predict_city self days) city_aqi_dict ([], []).

End predictor.

(** ** aqi_app.py *)

Module aqi_app.

Import predictor.

(** The dictionary returned by [get_city_aqi_info]: its two shapes. *)
Inductive city_info : Type :=
| Success (city : string) (current_aqi : Q) (category color : string)
          (predictions : list Q) (summary : prediction_summary)
| Error (city : string) (error : string).

Definition status (info : city_info) : string :=
  match info with Success _ _ _ _ _ _ => "success" | Error _ _ => "error" end.

Definition is_success (info : city_info) : bool :=
  match info with Success _ _ _ _ _ _ => true | Error _ _ => false end.

Definition info_city (info : city_info) : string :=
  match info with Success c _ _ _ _ _ => c | Error c _ => c end.

Record report_summary : Type := {
  total_cities : Z;
  successful_fetches : Z;
  failed_fetches : Z;
  average_aqi : Q;
  highest_aqi_city : option (string * Q);
  lowest_aqi_city : option (string * Q)
}.

Record report : Type := {
  cities : list (string * city_info);
  summary : report_summary
}.

(** What the [for city in cities] loop of [get_multiple_cities_report]
    updates. *)
Record loop_state : Type := {
  report_cities : list (string * city_info);
  successes : Z;
  failures : Z;
  valid_aqis : list (string * Q)
}.

Definition loop_init : loop_state :=
  {| report_cities := []; successes := 0; failures := 0; valid_aqis := [] |}.

Section App.

(** [self.data_fetcher.fetch_aqi]: returns a number or raises, and may
    change the world.  [self.predictor] is [AQIPredictor()]. *)
Variable World : Type.
Variable fetch_aqi : string -> World -> result Q * World.

Definition self_predictor : AQIPredictor := __init__ None.

Definition get_city_aqi_info (city : string) (w : World)
  : city_info * World :=
  let (fetched, w') := fetch_aqi city w in
  let attempt :=
    current_aqi <- fetched ;;
    let (category, color) := aqi_utils.get_aqi_category current_aqi in
    predictions <- predict_aqi self_predictor current_aqi None ;;
    prediction_summary <-
      get_prediction_summary self_predictor current_aqi None ;;
    Return (Success (capitalize city) current_aqi category color
                    predictions prediction_summary) in
  match attempt with
  | Return info => (info, w')
  | Raise e => (Error (capitalize city) (str e), w')
  end.

Definition loop_body (city : string) (st : loop_state) (w : World)
  : loop_state * World :=
  let (city_info, w') := get_city_aqi_info city w in
  let report_cities' := dict_set (report_cities st) city city_info in
  match city_info with
  | Success _ aqi _ _ _ _ =>
      ({| report_cities := report_cities';
          successes := successes st + 1;
          failures := failures st;
          valid_aqis := valid_aqis st ++ [(city, aqi)] |}, w')
  | Error _ _ =>
      ({| report_cities := report_cities';
          successes := successes st;
          failures := failures st + 1;
          valid_aqis := valid_aqis st |}, w')
  end.

Fixpoint loop (cs : list string) (st : loop_state) (w : World)
  : loop_state * World :=
  match cs with
  | [] => (st, w)
  | city :: rest => let (st', w') := loop_body city st w in loop rest st' w'
  end.

Definition get_multiple_cities_report (cs : list string) (w : World)
  : report * World :=
  let (st, w') := loop cs loop_init w in
  let summary0 :=
    {| total_cities := Z.of_nat (List.length cs);
       successful_fetches := successes st;
       failed_fetches := failures st;
       average_aqi := 0;
       highest_aqi_city := None;
       lowest_aqi_city := None |} in
  match valid_aqis st with
  | [] => ({| cities := report_cities st; summary := summary0 |}, w')
  | v0 :: vs =>
      let aqi_values := map snd (valid_aqis st) in
      let highest := max_scan snd v0 vs in
      let lowest := min_scan snd v0 vs in
      ({| cities := report_cities st;
          summary :=
            {| total_cities := total_cities summary0;
               successful_fetches := successful_fetches summary0;
               failed_fetches := failed_fetches summary0;
               average_aqi := py.sum aqi_values / len aqi_values;
               highest_aqi_city := Some (fst highest, snd highest);
               lowest_aqi_city := Some (fst lowest, snd lowest) |} |}, w')
  end.

End App.

Arguments get_city_aqi_info {World} fetch_aqi city w.
Arguments loop_body {World} fetch_aqi city st w.
Arguments loop {World} fetch_aqi cs st w.
Arguments get_multiple_cities_report {World} fetch_aqi cs w.

End aqi_app.

(** ** JSON values and the HTTP library, as far as the fetcher uses them *)

Module json.

Local Unset Elimination Schemes.

(** What [response.json()] can return. *)
Inductive value : Type :=
| Null
| Bool (b : bool)
| Number (q : Q)
| Str (s : string)
| Array (items : list value)
| Object (members : list (string * value)).

Local Set Elimination Schemes.

End json.

Module requests.

(** The classes the handlers of [fetch_aqi] tell apart:
    [requests.RequestException] and [KeyError], each with its subclasses,
    and the others, by name. *)
Inductive exc_class : Type :=
| RequestException
| KeyError
| TypeError
| AttributeError
| OtherClass (name : string).

(** A raised exception; [message] is what [str(e)] returns. *)
Record exc : Type := { cls : exc_class; message : string }.

Inductive outcome (A : Type) : Type :=
| Ok (a : A)
| Raised (e : exc).
Arguments Ok {A} a.
Arguments Raised {A} e.

Definition obind {A B} (r : outcome A) (k : A -> outcome B) : outcome B :=
  match r with Ok a => k a | Raised e => Raised e end.

(** A response: its status code and what [response.json()] does. *)
Record Response : Type := { status_code : Z; body : outcome json.value }.

End requests.

(** ** data_fetcher.py *)

Module data_fetcher.

Import json requests.

Local Notation "x <~ r ;; k" := (obind r (fun x => k))
  (at level 61, r at next level, right associativity).

Local Open Scope string_scope.

Record AQIDataFetcher : Type := { api_key : string; base_url : string }.

(** [api_key or API_KEY]: [None] and the empty string are both falsy. *)
Definition __init__ (api_key : option string) : AQIDataFetcher :=
  {| api_key := match api_key with
                | None => config.API_KEY
                | Some EmptyString => config.API_KEY
                | Some k => k
                end;
     base_url := config.BASE_URL |}.

Section Fetch.

(** [requests.get] returns a response or raises, and may change the world.
    The wording of the interpreter's [AttributeError] and [TypeError]
    messages depends on its version and is left open. *)
Variable World : Type.
Variable requests_get : string -> World -> outcome Response * World.
Variable attribute_error_message : value -> string.
Variable type_error_message : value -> string.

(** [data.get(key)]: only a dictionary has the method; a missing key gives
    [None]. *)
Definition method_get (data : value) (key : string) : outcome value :=
  match data with
  | Object members =>
      Ok (match dict_get members key with Some v => v | None => Null end)
  | _ => Raised {| cls := AttributeError;
                   message := attribute_error_message data |}
  end.

(** [data[key]] with a string key. *)
Definition getitem (data : value) (key : string) : outcome value :=
  match data with
  | Object members =>
      match dict_get members key with
      | Some v => Ok v
      | None => Raised {| cls := KeyError; message := "'" ++ key ++ "'" |}
      end
  | _ => Raised {| cls := TypeError; message := type_error_message data |}
  end.

(** [v != 'ok']. *)
Definition differs_from_ok (v : value) : bool :=
  match v with Str s => negb (String.eqb s "ok") | _ => true end.

Definition fetch_aqi (self : AQIDataFetcher) (city : string) (w : World)
  : outcome value * World :=
  let url := base_url self ++ city ++ "/?token=" ++ api_key self in
  let (got, w') := requests_get url w in
  let attempt :=
    response <~ got ;;
    data <~ body response ;;
    refused <~ (if negb (status_code response =? 200)%Z then Ok true
                else status <~ method_get data "status" ;;
                     Ok (differs_from_ok status)) ;;
    if (refused : bool) then
      Raised {| cls := OtherClass "Exception";
                message := "Failed to fetch AQI for '" ++ city
                           ++ "'. Make sure the city name is supported." |}
    else
      inner <~ getitem data "data" ;;
      getitem inner "aqi" in
  match attempt with
  | Ok aqi => (Ok aqi, w')
  | Raised e =>
      match cls e with
      | RequestException =>
          (Raised {| cls := OtherClass "Exception";
                     message := "Network error while fetching AQI for '"
                                ++ city ++ "': " ++ message e |}, w')
      | KeyError =>
          (Raised {| cls := OtherClass "Exception";
                     message := "Unexpected API response format for '"
                                ++ city ++ "': " ++ message e |}, w')
      | _ => (Raised e, w')
      end
  end.

End Fetch.

Arguments fetch_aqi {World} requests_get attribute_error_message
  type_error_message self city w.

Section FetchMany.

(** [self.fetch_aqi], as [aqi_app] takes it: a number or an exception. *)
Variable World : Type.
Variable self_fetch_aqi : string -> World -> result Q * World.

(** One turn of the loop of [fetch_multiple_cities]. *)
Definition fetch_city (city : string)
    (acc : list (string * option Q) * list string) (w : World)
  : (list (string * option Q) * list string) * World :=
  let (results, printed) := acc in
  let (fetched, w') := self_fetch_aqi city w in
  match fetched with
  | Return aqi => ((dict_set results city (Some aqi), printed), w')
  | Raise e =>
      let line := "Warning: Could not fetch AQI for " ++ city ++ ": "
                    ++ str e in
      ((dict_set results city None, (printed ++ [line])%list), w')
  end.

Fixpoint fetch_cities (cities : list string)
    (acc : list (string * option Q) * list string) (w : World)
  : (list (string * option Q) * list string) * World :=
  match cities with
  | [] => (acc, w)
  | city :: rest =>
      let (acc', w') := fetch_city city acc w in fetch_cities rest acc' w'
  end.

(** [fetch_multiple_cities]: the returned dictionary, the printed lines and
    the world after the fetches. *)
Definition fetch_multiple_cities (cities : list string) (w : World)
  : (list (string * option Q) * list string) * World :=
  fetch_cities cities ([], []) w.

End FetchMany.

Arguments fetch_city {World} self_fetch_aqi city acc w.
Arguments fetch_cities {World} self_fetch_aqi cities acc w.
Arguments fetch_multiple_cities {World} self_fetch_aqi cities w.

End data_fetcher.

(** * Part II: vocabulary of the statements *)

Import aqi_utils predictor aqi_app.

Local Open Scope string_scope.
Local Open Scope list_scope.
Local Open Scope Q_scope.

(** ** Classifier *)

(** A value is in a seam when it lies strictly between two adjacent bands. *)
Definition in_seam (v : Q) : Prop :=
  50 < v < 51 \/ 100 < v < 101 \/ 150 < v < 151 \/ 200 < v < 201 \/
  300 < v < 301.

(** The same scan on an integer, with integer comparisons. *)
Fixpoint scan_categories_Z (table : list (Z * Z * string * string)) (z : Z)
  : string * string :=
  match table with
  | [] => ("Unknown", "gray")
  | (low, high, label, color) :: rest =>
      if ((low <=? z) && (z <=? high))%Z then (label, color)
      else scan_categories_Z rest z
  end.

Definition inject_band (b : Z * Z * string * string)
  : Q * Q * string * string :=
  let '(low, high, label, color) := b in
  (inject_Z low, inject_Z high, label, color).

Definition AQI_CATEGORIES_Z : list (Z * Z * string * string) :=
  [ (0, 50, "Good", "#00e400");
    (51, 100, "Moderate", "#ffff00");
    (101, 150, "Unhealthy for Sensitive Groups", "#ff7e00");
    (151, 200, "Unhealthy", "#ff0000");
    (201, 300, "Very Unhealthy", "#8f3f97");
    (301, 500, "Hazardous", "#7e0023") ]%Z.

(** ** Regression and projection *)

(** The targets [Y] are the line [a + b * x] at the features [X]. *)
Definition on_line (a b : Q) (X Y : list Q) : Prop :=
  Forall2 (fun x y => y == a + b * x) X Y.

(** The series the projection returns, written without the regression. *)
Definition clamped_signal (self : AQIPredictor) (current_aqi : Q) (days : Z)
  : list Q :=
  map (fun i => np.clip1 0 500
                  (current_aqi * (1 + growth_rate self * inject_Z i)))
      (range days).

(** Direct evaluation, day by day: day [d] of [1..days] gets
    [current * (1 + growth * (d - 1))], clamped. *)
Definition direct_projection (current growth : Q) (days : Z) : list Q :=
  map (fun d => np.clip1 0 500 (current * (1 + growth * inject_Z (d - 1))))
      (map (fun i => (i + 1)%Z) (range days)).

(** The raw values of the fitted model at the training features, and the
    returned series, for one call of [predict_aqi]. *)
Definition raw_and_clamped (self : AQIPredictor) (current : Q) (days : Z)
    (raw clamped : list Q) : Prop :=
  exists model,
    sklearn.fit (training_X days) (training_y self current days)
      = Return model /\
    raw = sklearn.predict model (training_X days) /\
    clamped = np.clip raw 0 500 /\
    predict_aqi self current (Some days) = Return clamped.

Definition tag_of (increasing : bool) : string :=
  if increasing then "increasing" else "decreasing".

(** ** Reports *)

(** The record built from one fetch outcome: the body of the [try] of
    [get_city_aqi_info] and its handler. *)
Definition build_info (city : string) (fetched : result Q) : city_info :=
  let attempt :=
    current_aqi <- fetched ;;
    let (category, color) := aqi_utils.get_aqi_category current_aqi in
    predictions <- predict_aqi self_predictor current_aqi None ;;
    prediction_summary <-
      get_prediction_summary self_predictor current_aqi None ;;
    Return (Success (capitalize city) current_aqi category color
                    predictions prediction_summary) in
  match attempt with
  | Return info => info
  | Raise e => Error (capitalize city) (str e)
  end.

(** What a report entry must look like for a given fetch outcome. *)
Definition info_matches (city : string) (fetched : result Q)
    (info : city_info) : Prop :=
  match fetched with
  | Return v =>
      exists predictions s,
        predict_aqi self_predictor v None = Return predictions /\
        get_prediction_summary self_predictor v None = Return s /\
        info = Success (capitalize city) v
                       (fst (aqi_utils.get_aqi_category v))
                       (snd (aqi_utils.get_aqi_category v))
                       predictions s
  | Raise e => info = Error (capitalize city) (str e)
  end.

(** [h] is the first element of [l] whose key is the largest. *)
Definition first_max {A} (key : A -> Q) (l : list A) (h : A) : Prop :=
  exists before after,
    l = before ++ h :: after /\
    Forall (fun x => key x < key h) before /\
    Forall (fun x => key x <= key h) after.

(** [h] is the first element of [l] whose key is the smallest. *)
Definition first_min {A} (key : A -> Q) (l : list A) (h : A) : Prop :=
  exists before after,
    l = before ++ h :: after /\
    Forall (fun x => key h < key x) before /\
    Forall (fun x => key h <= key x) after.

(** The outcomes kept by the loop: the cities whose fetch returned, and
    those whose fetch raised. *)
Definition returned (outs : list (string * result Q)) : list (string * Q) :=
  flat_map (fun cr => match snd cr with
                      | Return v => [(fst cr, v)]
                      | Raise _ => []
                      end) outs.

Definition raised (outs : list (string * result Q))
  : list (string * PyException) :=
  flat_map (fun cr => match snd cr with
                      | Return _ => []
                      | Raise e => [(fst cr, e)]
                      end) outs.

(** [report['cities'][city] = city_info] for one outcome. *)
Definition store (d : list (string * city_info)) (cr : string * result Q)
  : list (string * city_info) :=
  dict_set d (fst cr) (build_info (fst cr) (snd cr)).

Section Fetches.

Variable World : Type.
Variable fetch_aqi : string -> World -> result Q * World.

(** The fetches of a run: one per requested city, in input order, each
    in the world left by the one before. *)
Fixpoint fetch_all (cs : list string) (w : World)
  : list (string * result Q) * World :=
  match cs with
  | [] => ([], w)
  | city :: rest =>
      let (fetched, w1) := fetch_aqi city w in
      let (outs, w2) := fetch_all rest w1 in
      ((city, fetched) :: outs, w2)
  end.

End Fetches.

Arguments fetch_all {World} fetch_aqi cs w.

(** The general content of the aggregate report for one run. *)
Definition aggregate_spec {World : Type}
    (fetch_aqi : string -> World -> result Q * World)
    (cs : list string) (w : World) : Prop :=
  let outs := fst (fetch_all fetch_aqi cs w) in
  let run := get_multiple_cities_report fetch_aqi cs w in
  let sm := summary (fst run) in
  map fst outs = cs /\
  snd run = snd (fetch_all fetch_aqi cs w) /\
  (forall c, In c cs ->
     exists r info,
       In (c, r) outs /\
       dict_get (cities (fst run)) c = Some info /\
       info_matches c r info) /\
  successful_fetches sm = Z.of_nat (List.length (returned outs)) /\
  failed_fetches sm = Z.of_nat (List.length (raised outs)) /\
  (successful_fetches sm + failed_fetches sm)%Z
    = Z.of_nat (List.length cs) /\
  (returned outs <> [] ->
   average_aqi sm = py.sum (map snd (returned outs)) / len (returned outs) /\
   exists highest lowest,
     highest_aqi_city sm = Some highest /\
     first_max snd (returned outs) highest /\
     lowest_aqi_city sm = Some lowest /\
     first_min snd (returned outs) lowest).

(** A feed in which "A" reads 40, "B" fails and "C" reads 300, in every
    world. *)
Definition feed_A40_Bfails_C300 {World : Type}
    (fetch_aqi : string -> World -> result Q * World) : Prop :=
  (forall w, exists w', fetch_aqi "A" w = (Return 40, w')) /\
  (forall w, exists e w', fetch_aqi "B" w = (Raise e, w')) /\
  (forall w, exists w', fetch_aqi "C" w = (Return 300, w')).

(** A feed in which every fetch fails. *)
Definition feed_always_fails {World : Type}
    (fetch_aqi : string -> World -> result Q * World) : Prop :=
  forall city w, exists e w', fetch_aqi city w = (Raise e, w').

Definition failing_feed (city : string) (w : unit) : result Q * unit :=
  (Raise (Exception (String.append "Failed to fetch AQI for " city)), w).

Definition scenario_feed (city : string) (w : nat) : result Q * nat :=
  (if String.eqb city "A" then Return 40
   else if String.eqb city "C" then Return 300
   else Raise (Exception "Failed to fetch AQI"), S w).

(** ** Several cities *)

(** The number of days a call works with. *)
Definition horizon (days : option Z) : Z :=
  match days with None => config.DEFAULT_PREDICTION_DAYS | Some d => d end.

(** What [predict_multiple_cities] stores for one reading. *)
Definition prediction_of (self : AQIPredictor) (days : option Z)
    (aqi : option Q) : option (list Q) :=
  match aqi with
  | Some v => match predict_aqi self v days with
              | Return p => Some p
              | Raise _ => None
              end
  | None => None
  end.

(** What [predict_multiple_cities] prints for one item. *)
Definition prediction_warning (self : AQIPredictor) (days : option Z)
    (item : string * option Q) : list string :=
  match snd item with
  | Some v => match predict_aqi self v days with
              | Return _ => []
              | Raise e => ["Warning: Could not predict AQI for " ++ fst item
                              ++ ": " ++ str e]%string
              end
  | None => []
  end.

(** What [fetch_multiple_cities] stores and prints for one outcome. *)
Definition fetched_value (fetched : result Q) : option Q :=
  match fetched with Return v => Some v | Raise _ => None end.

Definition fetch_warning (cr : string * result Q) : list string :=
  match snd cr with
  | Return _ => []
  | Raise e => ["Warning: Could not fetch AQI for " ++ fst cr ++ ": "
                  ++ str e]%string
  end.

(** A feed whose first fetch reads 40 and whose later fetches fail. *)
Definition flaky_feed (city : string) (w : nat) : result Q * nat :=
  (match w with
   | O => Return 40
   | S _ => Raise (Exception "Failed to fetch AQI")
   end, S w).

(** ** One request *)

(** The address [fetch_aqi] asks for. *)
Definition request_url (self : data_fetcher.AQIDataFetcher) (city : string)
  : string :=
  data_fetcher.base_url self ++ city ++ "/?token="
    ++ data_fetcher.api_key self.

(** The three exceptions [fetch_aqi] raises itself. *)
Definition refusal (city : string) : requests.exc :=
  {| requests.cls := requests.OtherClass "Exception";
     requests.message := "Failed to fetch AQI for '" ++ city
                         ++ "'. Make sure the city name is supported." |}.

Definition network_error (city m : string) : requests.exc :=
  {| requests.cls := requests.OtherClass "Exception";
     requests.message := "Network error while fetching AQI for '" ++ city
                         ++ "': " ++ m |}.

Definition format_error (city m : string) : requests.exc :=
  {| requests.cls := requests.OtherClass "Exception";
     requests.message := "Unexpected API response format for '" ++ city
                         ++ "': " ++ m |}.

(** What the [try] body of [fetch_aqi] does with a response. *)
Definition attempt_on (attribute_error_message type_error_message
                         : json.value -> string)
    (city : string) (response : requests.Response)
  : requests.outcome json.value :=
  requests.obind (requests.body response) (fun data =>
  requests.obind
    (if negb (requests.status_code response =? 200)%Z then requests.Ok true
     else requests.obind
            (data_fetcher.method_get attribute_error_message data "status")
            (fun status => requests.Ok (data_fetcher.differs_from_ok status)))
    (fun refused : bool =>
  if refused then requests.Raised (refusal city)
  else requests.obind
         (data_fetcher.getitem type_error_message data "data")
         (fun inner => data_fetcher.getitem type_error_message inner "aqi"))).

(** The two handlers of [fetch_aqi]. *)
Definition handled (city : string) (r : requests.outcome json.value)
  : requests.outcome json.value :=
  match r with
  | requests.Ok v => requests.Ok v
  | requests.Raised e =>
      match requests.cls e with
      | requests.RequestException =>
          requests.Raised (network_error city (requests.message e))
      | requests.KeyError =>
          requests.Raised (format_error city (requests.message e))
      | _ => requests.Raised e
      end
  end.

(** A feed answering every request with a given response, and one that
    cannot connect. *)
Definition answering (response : requests.Response) (url : string) (w : unit)
  : requests.outcome requests.Response * unit :=
  (requests.Ok response, w).

Definition unreachable (url : string) (w : unit)
  : requests.outcome requests.Response * unit :=
  (requests.Raised {| requests.cls := requests.RequestException;
                      requests.message := "Connection refused" |}, w).

(** The body of a well-formed answer with reading 42. *)
Definition reading_42 : json.value :=
  json.Object [("status", json.Str "ok");
               ("data", json.Object [("aqi", json.Number 42)])].

(** Placeholder wording for the interpreter's messages. *)
Definition no_wording (v : json.value) : string := EmptyString.

(** * Part III: properties *)

(** ** Comparisons *)

Lemma Qltb_lt (a b : Q) : Qltb a b = true <-> a < b.
Proof.
  unfold Qltb. rewrite negb_true_iff, <- not_true_iff_false, Qle_bool_iff.
  split; [apply Qnot_le_lt | apply Qlt_not_le].
Qed.

Lemma Qltb_ge (a b : Q) : Qltb a b = false <-> b <= a.
Proof.
  unfold Qltb. rewrite negb_false_iff. apply Qle_bool_iff.
Qed.

Lemma Qle_bool_false (a b : Q) : Qle_bool a b = false <-> b < a.
Proof.
  rewrite <- not_true_iff_false, Qle_bool_iff.
  split; [apply Qnot_le_lt | apply Qlt_not_le].
Qed.

#[global] Instance Qltb_proper : Proper (Qeq ==> Qeq ==> eq) Qltb.
Proof.
  intros a a' Ha b b' Hb. unfold Qltb. now rewrite Ha, Hb.
Qed.

Lemma Qle_bool_Z (a b : Z) : Qle_bool (inject_Z a) (inject_Z b) = (a <=? b)%Z.
Proof.
  unfold Qle_bool, inject_Z. simpl. now rewrite !Z.mul_1_r.
Qed.

(** Decide one comparison of the goal, keeping the fact. *)
Ltac case_le :=
  match goal with
  | |- context [Qle_bool ?a ?b] =>
      let E := fresh "E" in
      destruct (Qle_bool a b) eqn:E;
      [apply Qle_bool_iff in E | apply Qle_bool_false in E]
  end.

Ltac case_lt :=
  match goal with
  | |- context [Qltb ?a ?b] =>
      let E := fresh "E" in
      destruct (Qltb a b) eqn:E;
      [apply Qltb_lt in E | apply Qltb_ge in E]
  end.

(** ** The classifier *)

Section Classifier.

Import aqi_utils.

Local Open Scope string_scope.

Lemma category_good (v : Q) :
  0 <= v <= 50 -> get_aqi_category v = ("Good", "#00e400").
Proof.
  intros [H0 H50]. unfold get_aqi_category. simpl.
  repeat (case_le; simpl; try lra). reflexivity.
Qed.

Lemma category_below (v : Q) :
  v < 0 -> get_aqi_category v = ("Unknown", "gray").
Proof.
  intros H. unfold get_aqi_category. simpl.
  repeat (case_le; simpl; try lra); reflexivity.
Qed.

Lemma category_above (v : Q) :
  500 < v -> get_aqi_category v = ("Unknown", "gray").
Proof.
  intros H. unfold get_aqi_category. simpl.
  repeat (case_le; simpl; try lra); reflexivity.
Qed.

Lemma category_unknown_iff (v : Q) :
  0 <= v <= 500 ->
  (get_aqi_category v = ("Unknown", "gray") <-> in_seam v).
Proof.
  intros [H0 H500]. unfold get_aqi_category, in_seam. simpl.
  repeat (case_le; simpl; try lra);
    (split; [try discriminate; intros _; lra | try lra; reflexivity]).
Qed.

Lemma Qle_Z (a b : Z) : inject_Z a <= inject_Z b <-> (a <= b)%Z.
Proof. now rewrite <- Zle_Qle. Qed.

Lemma scan_categories_inject table (z : Z) :
  scan_categories (map inject_band table) (inject_Z z) =
  scan_categories_Z table z.
Proof.
  induction table as [| [[[low high] label] color] rest IH];
    [reflexivity |].
  cbn [map inject_band scan_categories scan_categories_Z].
  now rewrite !Qle_bool_Z, IH.
Qed.

Lemma AQI_CATEGORIES_integral :
  config.AQI_CATEGORIES = map inject_band AQI_CATEGORIES_Z.
Proof. reflexivity. Qed.

Lemma category_of_integer (z : Z) :
  (0 <= z <= 500)%Z ->
  exists low high label color,
    In (low, high, label, color) config.AQI_CATEGORIES /\
    low <= inject_Z z <= high /\
    get_aqi_category (inject_Z z) = (label, color) /\
    label <> "Unknown".
Proof.
  intros Hz. unfold get_aqi_category.
  rewrite AQI_CATEGORIES_integral, scan_categories_inject.
  cbn [AQI_CATEGORIES_Z scan_categories_Z map inject_band].
  repeat
    (match goal with
     | |- context [((?a <=? z) && (z <=? ?b))%Z] =>
         destruct (Z.leb_spec a z); [| lia];
         destruct (Z.leb_spec z b); cbn [andb]
     end;
     [ do 4 eexists;
       (split; [| split; [| split; [reflexivity | discriminate]]];
        [cbn [In]; eauto 10 | rewrite !Qle_Z; lia])
     | ]).
  lia.
Qed.

(** C5.  Every value of [0, 50] is classified ("Good", green); 50 is Good
    and 51 is Moderate; every value below 0 or above 500 gets the sentinel
    ("Unknown", "gray").  The classifier is a total function: it returns a
    pair for every number and has no raising path. *)
Theorem classify_good_and_unknown :
  (forall v : Q, 0 <= v <= 50 -> get_aqi_category v = ("Good", "#00e400")) /\
  get_aqi_category 50 = ("Good", "#00e400") /\
  get_aqi_category 51 = ("Moderate", "#ffff00") /\
  (forall v : Q, v < 0 \/ 500 < v ->
     get_aqi_category v = ("Unknown", "gray")).
Proof.
  split; [exact category_good |].
  split; [reflexivity |]. split; [reflexivity |].
  intros v [H | H]; [now apply category_below | now apply category_above].
Qed.

Lemma classify_good_and_unknown_witness :
  get_aqi_category 25 = ("Good", "#00e400") /\
  get_aqi_category (-1) = ("Unknown", "gray") /\
  get_aqi_category 501 = ("Unknown", "gray").
Proof.
  destruct classify_good_and_unknown as (Hgood & _ & _ & Hout).
  split; [apply Hgood; lra |].
  split; apply Hout; [left | right]; lra.
Defined.

(** C6, as stated, fails: 50.5 lies in [0, 500], no band contains it and
    the classifier answers with the sentinel. *)
Lemma classify_seam_counterexample :
  0 <= 50.5 <= 500 /\
  (forall low high label color,
     In (low, high, label, color) config.AQI_CATEGORIES ->
     ~ (low <= 50.5 <= high)) /\
  get_aqi_category 50.5 = ("Unknown", "gray").
Proof.
  split; [lra |]. split; [| reflexivity].
  intros low high label color Hin [Hl Hh].
  cbn in Hin.
  repeat (destruct Hin as [Hin | Hin];
          [injection Hin as <- <- <- <-; lra |]).
  exact Hin.
Qed.

(** C6, amended.  The six bands cover the integers of [0, 500]: for every
    integer value in that range some band of the table matches and the
    classifier returns that band, never the sentinel.  For the other values
    of [0, 500] the sentinel is returned exactly in the seams between two
    adjacent bands. *)
Theorem classify_covers_integers :
  (forall z : Z, (0 <= z <= 500)%Z ->
     exists low high label color,
       In (low, high, label, color) config.AQI_CATEGORIES /\
       low <= inject_Z z <= high /\
       get_aqi_category (inject_Z z) = (label, color) /\
       label <> "Unknown") /\
  (forall v : Q, 0 <= v <= 500 ->
     (get_aqi_category v = ("Unknown", "gray") <-> in_seam v)).
Proof.
  split; [exact category_of_integer | exact category_unknown_iff].
Qed.

Lemma classify_covers_integers_witness :
  (exists low high label color,
     In (low, high, label, color) config.AQI_CATEGORIES /\
     low <= inject_Z 50 <= high /\
     get_aqi_category (inject_Z 50) = (label, color) /\
     label <> "Unknown") /\
  (get_aqi_category 50.5 = ("Unknown", "gray") <-> in_seam 50.5).
Proof.
  destruct classify_covers_integers as [Hint Hseam].
  split; [apply Hint; lia | apply Hseam; lra].
Defined.

End Classifier.

(** ** Sums *)

Section Sums.

Lemma fold_left_Qplus (l : list Q) (a : Q) :
  fold_left Qplus l a == a + py.sum l.
Proof.
  unfold py.sum. revert a.
  induction l as [| x l IH]; intros a; simpl.
  - ring.
  - rewrite (IH (a + x)), (IH (0 + x)). ring.
Qed.

Lemma sum_cons (x : Q) (l : list Q) : py.sum (x :: l) == x + py.sum l.
Proof.
  unfold py.sum at 1. simpl. rewrite fold_left_Qplus. ring.
Qed.

#[global] Instance sum_proper : Proper (Forall2 Qeq ==> Qeq) py.sum.
Proof.
  intros l l' H. induction H as [| x x' l l' Hx _ IH]; [reflexivity |].
  now rewrite !sum_cons, Hx, IH.
Qed.

Lemma len_cons {A} (x : A) (l : list A) : len (x :: l) == len l + 1.
Proof.
  unfold len. cbn [List.length]. rewrite Nat2Z.inj_succ.
  unfold Z.succ. now rewrite inject_Z_plus.
Qed.

Lemma len_nonneg {A} (l : list A) : 0 <= len l.
Proof.
  unfold len. change 0 with (inject_Z 0). rewrite <- Zle_Qle. lia.
Qed.

Lemma len_cons_pos {A} (x : A) (l : list A) : 0 < len (x :: l).
Proof.
  rewrite len_cons. pose proof (len_nonneg l). lra.
Qed.

Lemma sum_squares_nonneg (l : list Q) :
  0 <= py.sum (map (fun x => x * x) l).
Proof.
  induction l as [| x l IH]; [unfold py.sum; simpl; lra |].
  cbn [map]. rewrite sum_cons. nra.
Qed.

Lemma sum_squares_zero (l : list Q) :
  py.sum (map (fun x => x * x) l) == 0 -> Forall (fun x => x == 0) l.
Proof.
  induction l as [| x l IH]; intros H; constructor.
  - cbn [map] in H. rewrite sum_cons in H.
    pose proof (sum_squares_nonneg l).
    assert (Hx : x * x == 0) by nra.
    apply Qmult_integral in Hx. tauto.
  - apply IH. cbn [map] in H. rewrite sum_cons in H.
    pose proof (sum_squares_nonneg l). nra.
Qed.

End Sums.

(** ** Least squares on data that lie on a line *)

Section Regression.

Import sklearn.

Lemma on_line_length a b X Y : on_line a b X Y -> List.length Y = List.length X.
Proof. intros H. symmetry. exact (Forall2_length H). Qed.

Lemma sum_on_line a b X Y :
  on_line a b X Y -> py.sum Y == len X * a + b * py.sum X.
Proof.
  induction 1 as [| x y X Y Hxy _ IH].
  - unfold py.sum, len. simpl. ring.
  - rewrite !sum_cons, len_cons, IH, Hxy. ring.
Qed.

Lemma mean_on_line a b X Y :
  X <> [] -> on_line a b X Y -> np.mean Y == a + b * np.mean X.
Proof.
  intros Hne H. unfold np.mean.
  assert (HlenY : len Y = len X)
    by (unfold len; now rewrite (on_line_length _ _ _ _ H)).
  rewrite HlenY, (sum_on_line _ _ _ _ H).
  assert (Hpos : 0 < len X)
    by (destruct X as [| x X]; [congruence | apply len_cons_pos]).
  field. lra.
Qed.

Lemma centred_on_line a b X Y mx my :
  my == a + b * mx -> on_line a b X Y ->
  on_line 0 b (map (fun x => x - mx) X) (map (fun v => v - my) Y).
Proof.
  intros Hm. induction 1 as [| x y X Y Hxy _ IH]; constructor; [| exact IH].
  rewrite Hxy, Hm. ring.
Qed.

Lemma cross_sum_on_line b XC YC :
  on_line 0 b XC YC ->
  py.sum (map (fun p => fst p * snd p) (combine XC YC)) ==
  b * py.sum (map (fun x => x * x) XC).
Proof.
  induction 1 as [| x y XC YC Hxy _ IH].
  - unfold py.sum. simpl. ring.
  - cbn [combine map fst snd]. rewrite !sum_cons, IH, Hxy. ring.
Qed.

(** The solver returns the slope of the line, unless the centred feature
    column is null. *)
Lemma lstsq_on_line b XC YC :
  on_line 0 b XC YC ->
  (lstsq XC YC == b /\ ~ py.sum (map (fun x => x * x) XC) == 0) \/
  (lstsq XC YC = 0 /\ Forall (fun x => x == 0) XC).
Proof.
  intros H. unfold lstsq.
  destruct (Qeq_bool (py.sum (map (fun x => x * x) XC)) 0) eqn:E.
  - right. split; [reflexivity |].
    apply sum_squares_zero. now apply Qeq_bool_iff.
  - left. assert (Hnz : ~ py.sum (map (fun x => x * x) XC) == 0).
    { intros Hz. apply Qeq_bool_iff in Hz. congruence. }
    split; [| exact Hnz].
    rewrite (cross_sum_on_line _ _ _ H). now field.
Qed.

Lemma Forall2_map_l_In {A B C} (R : A -> B -> Prop) (S : C -> B -> Prop)
    (f : A -> C) (l : list A) (m : list B) :
  Forall2 R l m ->
  (forall x y, In x l -> R x y -> S (f x) y) ->
  Forall2 S (map f l) m.
Proof.
  induction 1 as [| x y l m Hxy _ IH]; intros HS; constructor.
  - apply HS; [now left | exact Hxy].
  - apply IH. intros x' y' Hin. apply HS. now right.
Qed.

(** Fitting data that lie on a line and predicting at the same features
    gives the targets back. *)
Lemma fit_on_line a b X Y :
  X <> [] -> on_line a b X Y ->
  exists model, fit X Y = Return model /\ Forall2 Qeq (predict model X) Y.
Proof.
  intros Hne H.
  pose proof (mean_on_line _ _ _ _ Hne H) as Hmean.
  pose proof (centred_on_line _ _ _ _ _ _ Hmean H) as Hc.
  unfold fit. destruct X as [| x0 X0] eqn:EX; [congruence |].
  rewrite <- EX in *. clear EX Hne.
  eexists; split; [reflexivity |].
  unfold predict. cbn [coef_ intercept_].
  apply (Forall2_map_l_In _ _ _ _ _ H). intros x y Hin Hxy.
  destruct (lstsq_on_line _ _ _ Hc) as [[Hcoef _] | [Hcoef Hnull]].
  - rewrite Hcoef, Hmean, Hxy. ring.
  - rewrite Hcoef, Hmean, Hxy.
    rewrite Forall_forall in Hnull.
    assert (Hx : x - np.mean X == 0)
      by (apply Hnull, in_map_iff; now exists x).
    assert (Hx' : x == np.mean X) by lra.
    rewrite <- Hx'. ring.
Qed.

End Regression.

(** ** The predictor *)

Section Predictor.

Import predictor.

Local Open Scope string_scope.

(** Both comparisons of [np.clip1 0 500 v], inner one first. *)
Ltac clip_cases v :=
  unfold np.clip1;
  let E1 := fresh "E" in
  let E2 := fresh "E" in
  destruct (Qltb v 0) eqn:E1;
  [apply Qltb_lt in E1 | apply Qltb_ge in E1];
  match goal with
  | |- context [Qltb 500 ?m] =>
      destruct (Qltb 500 m) eqn:E2;
      [apply Qltb_lt in E2 | apply Qltb_ge in E2]
  end.

Lemma clip1_range (v : Q) : 0 <= np.clip1 0 500 v <= 500.
Proof. clip_cases v; lra. Qed.

Lemma clip1_below (v : Q) : v < 0 -> np.clip1 0 500 v = 0.
Proof. intros H. clip_cases v; try lra; reflexivity. Qed.

Lemma clip1_above (v : Q) : 500 < v -> np.clip1 0 500 v = 500.
Proof. intros H. clip_cases v; try lra; reflexivity. Qed.

Lemma clip1_inside (v : Q) : 0 <= v <= 500 -> np.clip1 0 500 v = v.
Proof. intros H. clip_cases v; try lra; reflexivity. Qed.

#[global] Instance clip1_proper : Proper (Qeq ==> Qeq ==> Qeq ==> Qeq) np.clip1.
Proof.
  intros lo lo' Hlo hi hi' Hhi v v' Hv. unfold np.clip1.
  assert (E1 : Qltb v' lo' = Qltb v lo) by now rewrite Hv, Hlo.
  rewrite E1. destruct (Qltb v lo).
  - assert (E2 : Qltb hi' lo' = Qltb hi lo) by now rewrite Hhi, Hlo.
    rewrite E2. now destruct (Qltb hi lo).
  - assert (E2 : Qltb hi' v' = Qltb hi v) by now rewrite Hhi, Hv.
    rewrite E2. now destruct (Qltb hi v).
Qed.

Lemma clip_proper (P Y : list Q) :
  Forall2 Qeq P Y -> Forall2 Qeq (np.clip P 0 500) (np.clip Y 0 500).
Proof.
  unfold np.clip. induction 1 as [| p y P Y Hpy _ IH]; constructor;
    [now rewrite Hpy | exact IH].
Qed.

Lemma range_length (n : Z) : List.length (range n) = Z.to_nat n.
Proof. unfold range. now rewrite length_map, length_seq. Qed.

Lemma range_nonempty (n : Z) : (1 <= n)%Z -> range n <> [].
Proof.
  intros H E. apply (f_equal (@List.length Z)) in E.
  rewrite range_length in E. simpl in E. lia.
Qed.

(** The training targets lie on a line over the training features. *)
Lemma training_on_line (self : AQIPredictor) (current_aqi : Q) (days : Z) :
  on_line (current_aqi * (1 - growth_rate self))
          (current_aqi * growth_rate self)
          (training_X days) (training_y self current_aqi days).
Proof.
  unfold on_line, training_X, training_y.
  induction (range days) as [| i l IH]; constructor; [| exact IH].
  rewrite inject_Z_plus. change (inject_Z 1) with 1. ring.
Qed.

Lemma predict_aqi_signal (self : AQIPredictor) (current_aqi : Q) (days : Z) :
  (1 <= days)%Z ->
  exists predictions,
    predict_aqi self current_aqi (Some days) = Return predictions /\
    Forall2 Qeq predictions (clamped_signal self current_aqi days).
Proof.
  intros Hd. unfold predict_aqi.
  assert (Hne : training_X days <> [])
    by (intros E; exact (range_nonempty days Hd (map_eq_nil _ _ E))).
  destruct (fit_on_line _ _ _ _ Hne
              (training_on_line self current_aqi days))
    as (model & Hfit & Hpred).
  rewrite Hfit. cbn [bind]. eexists; split; [reflexivity |].
  apply clip_proper in Hpred.
  unfold clamped_signal. unfold training_y, np.clip in Hpred.
  now rewrite map_map in Hpred.
Qed.

Lemma predict_aqi_empty (self : AQIPredictor) (current_aqi : Q) (days : Z) :
  (days <= 0)%Z ->
  exists e, predict_aqi self current_aqi (Some days) = Raise e.
Proof.
  intros Hd. unfold predict_aqi, training_X, range.
  replace (Z.to_nat days) with 0%nat by lia. cbn. eauto.
Qed.

Lemma direct_projection_signal (self : AQIPredictor) (current : Q) (days : Z) :
  direct_projection current (growth_rate self) days =
  clamped_signal self current days.
Proof.
  unfold direct_projection, clamped_signal. rewrite map_map.
  apply map_ext. intros i. now replace (i + 1 - 1)%Z with i by lia.
Qed.

Lemma project_100_run :
  exists predictions,
    predict_aqi (__init__ (Some 0.04)) 100 (Some 7%Z) = Return predictions /\
    Forall2 Qeq predictions [100; 104; 108; 112; 116; 120; 124].
Proof.
  eexists. split; [vm_compute; reflexivity |].
  repeat constructor; vm_compute; reflexivity.
Qed.




Lemma project_480_run :
  exists raw clamped,
    raw_and_clamped (__init__ (Some 0.5)) 480 3 raw clamped /\
    Forall2 Qeq raw [480; 720; 960] /\
    Forall2 Qeq clamped [480; 500; 500].
Proof.
  eexists. eexists. split.
  - eexists. split; [vm_compute; reflexivity |].
    split; [reflexivity |]. split; [reflexivity |].
    vm_compute; reflexivity.
  - split; repeat constructor; vm_compute; reflexivity.
Qed.



Lemma Forall2_Qeq_clip_range (predictions signal : list Q) :
  Forall2 Qeq predictions (map (np.clip1 0 500) signal) ->
  Forall (fun v => 0 <= v <= 500) predictions.
Proof.
  revert predictions.
  induction signal as [| y signal IH]; intros predictions H;
    inversion H as [| p ? ps ? Hp Hps]; subst; constructor.
  - rewrite Hp. apply clip1_range.
  - now apply IH.
Qed.

Lemma clip_pointwise (raw : list Q) :
  Forall2 (fun r p =>
             (r < 0 -> p = 0) /\ (500 < r -> p = 500) /\
             (0 <= r <= 500 -> p = r)) raw (np.clip raw 0 500).
Proof.
  unfold np.clip.
  induction raw as [| r l IH]; cbn [map]; constructor; try exact IH.
  split; [apply clip1_below |].
  split; [apply clip1_above | apply clip1_inside].
Qed.

Lemma clamped_signal_as_clip (self : AQIPredictor) (current : Q) (days : Z) :
  clamped_signal self current days =
  map (np.clip1 0 500) (training_y self current days).
Proof. unfold clamped_signal, training_y. now rewrite map_map. Qed.



Lemma init_rate_nonzero (growth_rate_arg : option Q) :
  ~ growth_rate (__init__ growth_rate_arg) == 0.
Proof.
  unfold __init__. destruct growth_rate_arg as [g |]; cbn [growth_rate].
  - destruct (Qeq_bool g 0) eqn:E.
    + intros H. vm_compute in H. discriminate.
    + intros H. apply Qeq_bool_iff in H. congruence.
  - intros H. vm_compute in H. discriminate.
Qed.

(** C10.  A zero growth rate given to the constructor is replaced by the
    configured default 0.04: for every current value and horizon the
    predictor built with a zero rate returns what the default predictor
    returns, for the projection and for its summary; and no argument of
    the constructor yields a predictor whose rate is zero. *)
Theorem zero_rate_is_default (zero current : Q) (days : option Z) :
  zero == 0 ->
  __init__ (Some zero) = __init__ None /\
  growth_rate (__init__ (Some zero)) = 0.04 /\
  predict_aqi (__init__ (Some zero)) current days =
    predict_aqi (__init__ None) current days /\
  get_prediction_summary (__init__ (Some zero)) current days =
    get_prediction_summary (__init__ None) current days /\
  (forall growth_rate_arg, ~ growth_rate (__init__ growth_rate_arg) == 0).
Proof.
  intros Hz.
  assert (E : __init__ (Some zero) = __init__ None).
  { unfold __init__. apply Qeq_bool_iff in Hz. now rewrite Hz. }
  rewrite E. repeat split; try reflexivity. exact init_rate_nonzero.
Qed.

Lemma zero_rate_is_default_witness :
  __init__ (Some 0) = __init__ None /\
  growth_rate (__init__ (Some 0)) = 0.04 /\
  predict_aqi (__init__ (Some 0)) 100 (Some 7%Z) =
    predict_aqi (__init__ None) 100 (Some 7%Z) /\
  get_prediction_summary (__init__ (Some 0)) 100 (Some 7%Z) =
    get_prediction_summary (__init__ None) 100 (Some 7%Z) /\
  (forall growth_rate_arg, ~ growth_rate (__init__ growth_rate_arg) == 0).
Proof. apply zero_rate_is_default. reflexivity. Defined.

(** *** The summary and its trend tag *)

Lemma last_cons {A} (a d : A) (l : list A) : last (a :: l) d = last l a.
Proof.
  revert a d. induction l as [| b l IH]; intros a d; [reflexivity |].
  change (last (a :: b :: l) d) with (last (b :: l) d).
  now rewrite (IH b d), (IH b a).
Qed.

Lemma last_map_seq {A} (h : nat -> A) (a m : nat) :
  last (map h (seq (S a) m)) (h a) = h (a + m)%nat.
Proof.
  revert a. induction m as [| m IH]; intros a.
  - now rewrite Nat.add_0_r.
  - cbn [seq map]. rewrite last_cons, IH. f_equal. lia.
Qed.

Lemma Forall2_last {A B} (R : A -> B -> Prop) l m a b :
  Forall2 R l m -> R a b -> R (last l a) (last m b).
Proof.
  intros H. revert a b.
  induction H as [| x y l m Hxy _ IH]; intros a b Hab; [exact Hab |].
  rewrite !last_cons. now apply IH.
Qed.

(** First and last element of the returned series. *)
Lemma predict_aqi_ends (self : AQIPredictor) (current : Q) (days : Z) :
  (1 <= days)%Z ->
  exists first rest,
    predict_aqi self current (Some days) = Return (first :: rest) /\
    first == np.clip1 0 500 current /\
    last rest first ==
      np.clip1 0 500
        (current * (1 + growth_rate self * inject_Z (days - 1))).
Proof.
  intros Hd.
  destruct (predict_aqi_signal self current days Hd)
    as (predictions & Hrun & Hsig).
  unfold clamped_signal, range in Hsig. rewrite map_map in Hsig.
  set (h := fun n : nat =>
              np.clip1 0 500
                (current * (1 + growth_rate self * inject_Z (Z.of_nat n))))
    in Hsig.
  destruct (Z.to_nat days) as [| m] eqn:En; [lia |].
  cbn [seq map] in Hsig.
  inversion Hsig as [| first y0 rest ys Hfirst Hrest]; subst.
  exists first, rest. split; [exact Hrun |]. split.
  - rewrite Hfirst. unfold h. apply clip1_proper; try reflexivity.
    change (inject_Z (Z.of_nat 0)) with 0. ring.
  - pose proof (Forall2_last _ _ _ _ _ Hrest Hfirst) as Hlast.
    rewrite Hlast, last_map_seq. unfold h.
    now replace (Z.of_nat (0 + m)) with (days - 1)%Z by lia.
Qed.

Lemma summary_run (self : AQIPredictor) (current : Q) (days : option Z)
    (first : Q) (rest : list Q) :
  predict_aqi self current days = Return (first :: rest) ->
  exists s,
    get_prediction_summary self current days = Return s /\
    predictions s = first :: rest /\
    trend s = if Qltb first (last rest first)
              then "increasing" else "decreasing".
Proof.
  intros Hrun. unfold get_prediction_summary. rewrite Hrun. cbn [bind].
  eexists. split; [reflexivity |]. split; reflexivity.
Qed.

Lemma clip1_spec (v : Q) :
  (v < 0 /\ np.clip1 0 500 v = 0) \/
  (0 <= v <= 500 /\ np.clip1 0 500 v = v) \/
  (500 < v /\ np.clip1 0 500 v = 500).
Proof.
  destruct (Qlt_le_dec v 0) as [H | H];
    [left; split; [exact H | now apply clip1_below] |].
  destruct (Qlt_le_dec 500 v) as [H' | H'];
    [right; right; split; [exact H' | now apply clip1_above] |].
  right; left; split; [split; assumption | now apply clip1_inside].
Qed.

Lemma Qltb_irrefl (a : Q) : Qltb a a = false.
Proof. apply Qltb_ge. apply Qle_refl. Qed.

Lemma tag_increasing (b : bool) : tag_of b = "increasing" <-> b = true.
Proof. destruct b; split; intros H; try reflexivity; discriminate. Qed.

Lemma tag_decreasing (b : bool) : tag_of b = "decreasing" <-> b = false.
Proof. destruct b; split; intros H; try reflexivity; discriminate. Qed.

(** When the rate and the current value are positive, the clamped last
    value exceeds the clamped first one exactly when there are at least
    two days and the current value is below 500. *)
Lemma ends_increasing (g x k : Q) :
  0 < g -> 0 < x -> (k == 0 \/ 1 <= k) ->
  (Qltb (np.clip1 0 500 x) (np.clip1 0 500 (x * (1 + g * k))) = true <->
   1 <= k /\ x < 500).
Proof.
  intros Hg Hx [Hk | Hk].
  - assert (E : x * (1 + g * k) == x) by (rewrite Hk; ring).
    rewrite E, Qltb_irrefl. split; [discriminate | intros [H _]; lra].
  - assert (Hxg : 0 < x * g) by now apply Qmult_lt_0_compat.
    assert (Hxgk : 0 <= (x * g) * (k - 1))
      by (apply Qmult_le_0_compat; lra).
    assert (Hy : x < x * (1 + g * k)) by lra.
    rewrite Qltb_lt.
    destruct (clip1_spec x) as [[H1 ->] | [[H1 ->] | [H1 ->]]];
      destruct (clip1_spec (x * (1 + g * k)))
        as [[H2 ->] | [[H2 ->] | [H2 ->]]];
      split; try (intros [? ?]); try intros ?; try split; lra.
Qed.

Lemma ends_flat (x k g : Q) :
  g == 0 ->
  Qltb (np.clip1 0 500 x) (np.clip1 0 500 (x * (1 + g * k))) = false.
Proof.
  intros Hg.
  assert (E : x * (1 + g * k) == x) by (rewrite Hg; ring).
  rewrite E. apply Qltb_irrefl.
Qed.

Lemma days_offset (days : Z) :
  (1 <= days)%Z ->
  (inject_Z (days - 1) == 0 \/ 1 <= inject_Z (days - 1)) /\
  (1 <= inject_Z (days - 1) <-> (2 <= days)%Z).
Proof.
  intros Hd. change 1 with (inject_Z 1). rewrite <- !Zle_Qle.
  split; [| lia].
  destruct (Z.eq_dec days 1) as [-> | Hne]; [left; reflexivity | right; lia].
Qed.

Lemma summary_trend_run (self : AQIPredictor) (x : Q) (days : Z) :
  (1 <= days)%Z ->
  exists s first rest,
    get_prediction_summary self x (Some days) = Return s /\
    predictions s = first :: rest /\
    trend s = tag_of (Qltb first (last rest first)) /\
    Qltb first (last rest first) =
      Qltb (np.clip1 0 500 x)
           (np.clip1 0 500
              (x * (1 + growth_rate self * inject_Z (days - 1)))).
Proof.
  intros Hd.
  destruct (predict_aqi_ends self x days Hd)
    as (first & rest & Hrun & Hfirst & Hlast).
  destruct (summary_run _ _ _ _ _ Hrun) as (s & Hs & Hp & Ht).
  exists s, first, rest.
  split; [exact Hs |]. split; [exact Hp |]. split; [exact Ht |].
  apply Qltb_proper; assumption.
Qed.

Lemma summary_at (rate : option Q) (x : Q) (days : Z) (tag : string) :
  match get_prediction_summary (__init__ rate) x (Some days) with
  | Return s => String.eqb (trend s) tag
  | Raise _ => false
  end = true ->
  exists s,
    get_prediction_summary (__init__ rate) x (Some days) = Return s /\
    trend s = tag.
Proof.
  destruct (get_prediction_summary (__init__ rate) x (Some days)) as [s |];
    [| discriminate].
  intros H. exists s. split; [reflexivity | now apply String.eqb_eq].
Qed.




End Predictor.

(** ** The report builders *)

Section Reports.

Import predictor aqi_app.

Local Open Scope string_scope.
Local Open Scope list_scope.

Lemma predict_aqi_default (self : AQIPredictor) (current : Q) :
  predict_aqi self current None =
  predict_aqi self current (Some config.DEFAULT_PREDICTION_DAYS).
Proof. reflexivity. Qed.

Lemma default_projection_runs (current : Q) :
  exists predictions s,
    predict_aqi self_predictor current None = Return predictions /\
    get_prediction_summary self_predictor current None = Return s.
Proof.
  assert (Hd : (1 <= config.DEFAULT_PREDICTION_DAYS)%Z)
    by (unfold config.DEFAULT_PREDICTION_DAYS; lia).
  destruct (predict_aqi_ends self_predictor current _ Hd)
    as (first & rest & Hrun & _).
  rewrite <- predict_aqi_default in Hrun.
  destruct (summary_run _ _ _ _ _ Hrun) as (s & Hs & _).
  exists (first :: rest), s. split; [exact Hrun | exact Hs].
Qed.

Lemma build_info_matches (city : string) (fetched : result Q) :
  info_matches city fetched (build_info city fetched).
Proof.
  destruct fetched as [v | e]; cbn [info_matches]; [| reflexivity].
  destruct (default_projection_runs v) as (predictions & s & Hp & Hs).
  exists predictions, s. split; [exact Hp |]. split; [exact Hs |].
  unfold build_info. cbn [bind].
  destruct (aqi_utils.get_aqi_category v) as [category color].
  cbn [fst snd]. rewrite Hp. cbn [bind]. rewrite Hs. reflexivity.
Qed.

Section WithFetch.

Variable World : Type.
Variable fetch_aqi : string -> World -> result Q * World.

Lemma get_city_aqi_info_build (city : string) (w : World) :
  get_city_aqi_info fetch_aqi city w =
  (build_info city (fst (fetch_aqi city w)), snd (fetch_aqi city w)).
Proof.
  unfold get_city_aqi_info, build_info.
  destruct (fetch_aqi city w) as [fetched w']. cbn [fst snd].
  match goal with |- match ?a with _ => _ end = _ => now destruct a end.
Qed.

Lemma get_city_aqi_info_raised city w e w' :
  fetch_aqi city w = (Raise e, w') ->
  get_city_aqi_info fetch_aqi city w = (Error (capitalize city) (str e), w').
Proof.
  intros H. rewrite get_city_aqi_info_build, H. reflexivity.
Qed.

Lemma get_city_aqi_info_returned city w v w' :
  fetch_aqi city w = (Return v, w') ->
  exists info,
    get_city_aqi_info fetch_aqi city w = (info, w') /\
    info_matches city (Return v) info.
Proof.
  intros H. rewrite get_city_aqi_info_build, H. cbn [fst snd].
  eexists. split; [reflexivity | apply build_info_matches].
Qed.

End WithFetch.

(** C3.  For every city name and every fetch capability, when the fetch
    raises an exception the report builder returns (it does not raise) an
    error-tagged record that carries the capitalized city name and the
    text of the exception. *)
Theorem fetch_failure_is_caught
    (World : Type) (fetch_aqi : string -> World -> result Q * World)
    (city : string) (w w' : World) (e : PyException) :
  fetch_aqi city w = (Raise e, w') ->
  exists info,
    get_city_aqi_info fetch_aqi city w = (info, w') /\
    info = Error (capitalize city) (str e) /\
    status info = "error" /\
    info_city info = capitalize city.
Proof.
  intros H. rewrite (get_city_aqi_info_raised _ _ _ _ _ _ H).
  eexists. repeat split.
Qed.

Lemma fetch_failure_is_caught_witness :
  exists info,
    get_city_aqi_info
      (fun (city : string) (w : unit) =>
         (@Raise Q (Exception "Failed to fetch AQI"), w))
      "new delhi" tt = (info, tt) /\
    info = Error "New delhi" "Failed to fetch AQI" /\
    status info = "error" /\
    info_city info = "New delhi".
Proof.
  apply (fetch_failure_is_caught unit
           (fun (city : string) (w : unit) =>
              (@Raise Q (Exception "Failed to fetch AQI"), w))
           "new delhi" tt tt (Exception "Failed to fetch AQI")).
  reflexivity.
Defined.

(** *** The scans of [max] and [min] *)

Lemma max_scan_first {A} (key : A -> Q) (rest seen : list A) (best : A) :
  first_max key seen best ->
  first_max key (seen ++ rest) (max_scan key best rest).
Proof.
  revert seen best.
  induction rest as [| x rest IH]; intros seen best Hbest.
  - now rewrite app_nil_r.
  - cbn [max_scan].
    replace (seen ++ x :: rest) with ((seen ++ [x]) ++ rest)
      by now rewrite <- app_assoc.
    apply IH.
    destruct Hbest as (before & after & -> & Hb & Ha).
    case_lt.
    + exists (before ++ best :: after), []. split; [reflexivity |].
      split; [| constructor].
      apply Forall_app. split.
      * eapply Forall_impl; [| exact Hb]. cbn. intros y Hy. lra.
      * constructor; [exact E |].
        eapply Forall_impl; [| exact Ha]. cbn. intros y Hy. lra.
    + exists before, (after ++ [x]).
      split; [now rewrite <- app_assoc |]. split; [exact Hb |].
      apply Forall_app. split; [exact Ha | now constructor].
Qed.

Lemma min_scan_first {A} (key : A -> Q) (rest seen : list A) (best : A) :
  first_min key seen best ->
  first_min key (seen ++ rest) (min_scan key best rest).
Proof.
  revert seen best.
  induction rest as [| x rest IH]; intros seen best Hbest.
  - now rewrite app_nil_r.
  - cbn [min_scan].
    replace (seen ++ x :: rest) with ((seen ++ [x]) ++ rest)
      by now rewrite <- app_assoc.
    apply IH.
    destruct Hbest as (before & after & -> & Hb & Ha).
    case_lt.
    + exists (before ++ best :: after), []. split; [reflexivity |].
      split; [| constructor].
      apply Forall_app. split.
      * eapply Forall_impl; [| exact Hb]. cbn. intros y Hy. lra.
      * constructor; [exact E |].
        eapply Forall_impl; [| exact Ha]. cbn. intros y Hy. lra.
    + exists before, (after ++ [x]).
      split; [now rewrite <- app_assoc |]. split; [exact Hb |].
      apply Forall_app. split; [exact Ha | now constructor].
Qed.

Lemma max_scan_is_first_max {A} (key : A -> Q) (v0 : A) (vs : list A) :
  first_max key (v0 :: vs) (max_scan key v0 vs).
Proof.
  apply (max_scan_first key vs [v0] v0).
  exists [], []. repeat split; constructor.
Qed.

Lemma min_scan_is_first_min {A} (key : A -> Q) (v0 : A) (vs : list A) :
  first_min key (v0 :: vs) (min_scan key v0 vs).
Proof.
  apply (min_scan_first key vs [v0] v0).
  exists [], []. repeat split; constructor.
Qed.

(** *** Dictionaries *)

Lemma dict_get_set_same {V} (d : list (string * V)) k v :
  dict_get (dict_set d k v) k = Some v.
Proof.
  induction d as [| [k' v'] d IH]; cbn [dict_set dict_get].
  - now rewrite String.eqb_refl.
  - destruct (String.eqb k' k) eqn:E; cbn [dict_get]; now rewrite E.
Qed.

Lemma dict_get_set_other {V} (d : list (string * V)) k k' v :
  k <> k' -> dict_get (dict_set d k v) k' = dict_get d k'.
Proof.
  intros Hne. induction d as [| [k0 v0] d IH]; cbn [dict_set dict_get].
  - apply String.eqb_neq in Hne. now rewrite Hne.
  - destruct (String.eqb k0 k) eqn:E; cbn [dict_get].
    + apply String.eqb_eq in E. subst k0.
      apply String.eqb_neq in Hne. now rewrite Hne.
    + now rewrite IH.
Qed.

(** *** The loop over the cities *)

Section Loop.

Variable World : Type.
Variable fetch_aqi : string -> World -> result Q * World.

Lemma fetch_all_cities cs w : map fst (fst (fetch_all fetch_aqi cs w)) = cs.
Proof.
  revert w. induction cs as [| city cs IH]; intros w; [reflexivity |].
  cbn [fetch_all]. destruct (fetch_aqi city w) as [fetched w1].
  specialize (IH w1). destruct (fetch_all fetch_aqi cs w1) as [outs w2].
  cbn [fst map] in *. now rewrite IH.
Qed.

Lemma loop_body_returned city st w v w' :
  fetch_aqi city w = (Return v, w') ->
  loop_body fetch_aqi city st w =
  ({| report_cities := store (report_cities st) (city, Return v);
      successes := successes st + 1;
      failures := failures st;
      valid_aqis := valid_aqis st ++ [(city, v)] |}, w').
Proof.
  intros H. unfold loop_body, store.
  rewrite get_city_aqi_info_build, H. cbn [fst snd].
  destruct (build_info_matches city (Return v))
    as (predictions & s & _ & _ & ->).
  reflexivity.
Qed.

Lemma loop_body_raised city st w e w' :
  fetch_aqi city w = (Raise e, w') ->
  loop_body fetch_aqi city st w =
  ({| report_cities := store (report_cities st) (city, Raise e);
      successes := successes st;
      failures := failures st + 1;
      valid_aqis := valid_aqis st |}, w').
Proof.
  intros H. unfold loop_body, store.
  now rewrite get_city_aqi_info_build, H.
Qed.

Lemma loop_outcomes cs st w :
  loop fetch_aqi cs st w =
  (let outs := fst (fetch_all fetch_aqi cs w) in
   {| report_cities := fold_left store outs (report_cities st);
      successes :=
        (successes st + Z.of_nat (List.length (returned outs)))%Z;
      failures := (failures st + Z.of_nat (List.length (raised outs)))%Z;
      valid_aqis := valid_aqis st ++ returned outs |},
   snd (fetch_all fetch_aqi cs w)).
Proof.
  revert st w. induction cs as [| city cs IH]; intros st w.
  - destruct st as [rc su fa va]. cbn.
    now rewrite !Z.add_0_r, app_nil_r.
  - cbn [loop fetch_all].
    destruct (fetch_aqi city w) as [[v | e] w1] eqn:Hfetch.
    + rewrite (loop_body_returned _ st _ _ _ Hfetch), IH.
      destruct (fetch_all fetch_aqi cs w1) as [outs w2].
      cbn [fst snd fold_left returned raised flat_map
           report_cities successes failures valid_aqis app].
      rewrite <- app_assoc. cbn [app List.length].
      f_equal. f_equal. lia.
    + rewrite (loop_body_raised _ st _ _ _ Hfetch), IH.
      destruct (fetch_all fetch_aqi cs w1) as [outs w2].
      cbn [fst snd fold_left returned raised flat_map
           report_cities successes failures valid_aqis app].
      cbn [List.length]. f_equal. f_equal. lia.
Qed.

(** The report, read off the outcomes of the fetches. *)
Lemma report_outcomes cs w :
  get_multiple_cities_report fetch_aqi cs w =
  (let outs := fst (fetch_all fetch_aqi cs w) in
   {| cities := fold_left store outs [];
      summary :=
        {| total_cities := Z.of_nat (List.length cs);
           successful_fetches := Z.of_nat (List.length (returned outs));
           failed_fetches := Z.of_nat (List.length (raised outs));
           average_aqi :=
             match returned outs with
             | [] => 0
             | _ => py.sum (map snd (returned outs)) / len (returned outs)
             end;
           highest_aqi_city :=
             match returned outs with
             | [] => None
             | v0 :: vs => Some (max_scan snd v0 vs)
             end;
           lowest_aqi_city :=
             match returned outs with
             | [] => None
             | v0 :: vs => Some (min_scan snd v0 vs)
             end |} |},
   snd (fetch_all fetch_aqi cs w)).
Proof.
  unfold get_multiple_cities_report. rewrite loop_outcomes.
  cbn [loop_init report_cities successes failures valid_aqis app
       Z.add].
  destruct (returned (fst (fetch_all fetch_aqi cs w))) as [| v0 vs];
    [reflexivity |].
  cbn [total_cities successful_fetches failed_fetches].
  rewrite <- !surjective_pairing. unfold len. now rewrite length_map.
Qed.

End Loop.

Lemma fold_store_get (outs : list (string * result Q))
    (d : list (string * city_info)) (c : string) :
  (In c (map fst outs) ->
   exists r, In (c, r) outs /\
             dict_get (fold_left store outs d) c = Some (build_info c r)) /\
  (~ In c (map fst outs) ->
   dict_get (fold_left store outs d) c = dict_get d c).
Proof.
  revert d. induction outs as [| [c0 r0] outs IH]; intros d.
  - split; [intros [] | reflexivity].
  - cbn [map fst fold_left]. destruct (IH (store d (c0, r0))) as [IH1 IH2].
    split.
    + intros Hin.
      destruct (in_dec string_dec c (map fst outs)) as [Hrest | Hrest].
      * destruct (IH1 Hrest) as (r & Hr & Hget).
        exists r. split; [now right | exact Hget].
      * destruct Hin as [-> | Hin]; [| contradiction].
        exists r0. split; [now left |].
        rewrite (IH2 Hrest). unfold store. cbn [fst snd].
        apply dict_get_set_same.
    + intros Hnot. rewrite IH2 by (intros H; apply Hnot; now right).
      unfold store. cbn [fst snd].
      apply dict_get_set_other. intros ->. apply Hnot. now left.
Qed.

Lemma returned_raised_length (outs : list (string * result Q)) :
  (List.length (returned outs) + List.length (raised outs))%nat =
  List.length outs.
Proof.
  unfold returned, raised.
  induction outs as [| [c [v | e]] outs IH]; [reflexivity | |];
    cbn [flat_map fst snd app List.length]; lia.
Qed.

Lemma aggregate_spec_holds {World : Type}
    (fetch_aqi : string -> World -> result Q * World)
    (cs : list string) (w : World) :
  aggregate_spec fetch_aqi cs w.
Proof.
  unfold aggregate_spec. rewrite report_outcomes.
  cbn [fst snd summary cities successful_fetches failed_fetches
       average_aqi highest_aqi_city lowest_aqi_city].
  pose proof (fetch_all_cities World fetch_aqi cs w) as Hcs.
  set (outs := fst (fetch_all fetch_aqi cs w)) in *.
  split; [exact Hcs |]. split; [reflexivity |]. split.
  { intros c Hc. rewrite <- Hcs in Hc.
    destruct (proj1 (fold_store_get outs [] c) Hc) as (r & Hr & Hget).
    exists r, (build_info c r).
    split; [exact Hr |]. split; [exact Hget | apply build_info_matches]. }
  split; [reflexivity |]. split; [reflexivity |]. split.
  { rewrite <- Nat2Z.inj_add, returned_raised_length.
    now rewrite <- Hcs, length_map. }
  intros Hne. destruct (returned outs) as [| v0 vs] eqn:E; [congruence |].
  split; [reflexivity |].
  exists (max_scan snd v0 vs), (min_scan snd v0 vs).
  split; [reflexivity |]. split; [apply max_scan_is_first_max |].
  split; [reflexivity | apply min_scan_is_first_min].
Qed.

(** *** The two scenarios *)

Lemma scenario_outcomes {World : Type}
    (fetch_aqi : string -> World -> result Q * World) (w : World) :
  feed_A40_Bfails_C300 fetch_aqi ->
  exists e,
    fst (fetch_all fetch_aqi ["A"; "B"; "C"] w) =
    [("A", Return 40); ("B", Raise e); ("C", Return 300)].
Proof.
  intros (HA & HB & HC).
  destruct (HA w) as [w1 H1]. destruct (HB w1) as (e & w2 & H2).
  destruct (HC w2) as [w3 H3].
  exists e. cbn [fetch_all]. now rewrite H1, H2, H3.
Qed.

Lemma always_fails_outcomes {World : Type}
    (fetch_aqi : string -> World -> result Q * World)
    (cs : list string) (w : World) :
  feed_always_fails fetch_aqi ->
  returned (fst (fetch_all fetch_aqi cs w)) = [].
Proof.
  intros Hfail. revert w.
  induction cs as [| city cs IH]; intros w; [reflexivity |].
  cbn [fetch_all]. destruct (Hfail city w) as (e & w1 & ->).
  specialize (IH w1). destruct (fetch_all fetch_aqi cs w1).
  exact IH.
Qed.

Lemma scenario_feed_ok : feed_A40_Bfails_C300 scenario_feed.
Proof.
  repeat split; intros w; unfold scenario_feed; cbn; eauto.
Qed.

Lemma failing_feed_ok : feed_always_fails failing_feed.
Proof. intros city w. unfold failing_feed. eauto. Qed.



(** C9.  For every list of city names and every fetch capability, if no
    city succeeds then the average of the aggregate report is 0 and its
    highest and lowest entries are [None]; when every fetch fails and three
    cities are requested, the counts are 0 successes and 3 failures. *)
Theorem no_success_report :
  (forall (World : Type) (fetch_aqi : string -> World -> result Q * World)
          (cs : list string) (w : World),
     let sm := summary (fst (get_multiple_cities_report fetch_aqi cs w)) in
     successful_fetches sm = 0%Z ->
     average_aqi sm = 0 /\
     highest_aqi_city sm = None /\
     lowest_aqi_city sm = None /\
     failed_fetches sm = Z.of_nat (List.length cs)) /\
  (forall (World : Type) (fetch_aqi : string -> World -> result Q * World)
          (c1 c2 c3 : string) (w : World),
     feed_always_fails fetch_aqi ->
     let sm := summary (fst (get_multiple_cities_report fetch_aqi
                               [c1; c2; c3] w)) in
     successful_fetches sm = 0%Z /\
     failed_fetches sm = 3%Z /\
     average_aqi sm = 0 /\
     highest_aqi_city sm = None /\
     lowest_aqi_city sm = None).
Proof.
  split.
  - intros World fetch_aqi cs w sm. subst sm.
    pose proof (aggregate_spec_holds fetch_aqi cs w)
      as (_ & _ & _ & Hsucc & _ & Htotal & _).
    rewrite report_outcomes in *.
    cbn [fst summary successful_fetches failed_fetches average_aqi
         highest_aqi_city lowest_aqi_city] in *.
    intros Hzero.
    destruct (returned (fst (fetch_all fetch_aqi cs w)));
      [| discriminate Hzero].
    repeat split. cbn [List.length] in Htotal. lia.
  - intros World fetch_aqi c1 c2 c3 w Hfail.
    pose proof (aggregate_spec_holds fetch_aqi [c1; c2; c3] w)
      as (_ & _ & _ & _ & _ & Htotal & _).
    rewrite report_outcomes in *. cbv zeta.
    cbn [fst summary successful_fetches failed_fetches average_aqi
         highest_aqi_city lowest_aqi_city] in *.
    rewrite (always_fails_outcomes fetch_aqi _ w Hfail) in *.
    cbn [List.length] in Htotal. repeat split. lia.
Qed.

Lemma no_success_report_witness :
  let sm := summary (fst (get_multiple_cities_report failing_feed
                            ["A"; "B"; "C"] tt)) in
  (average_aqi sm = 0 /\
   highest_aqi_city sm = None /\
   lowest_aqi_city sm = None /\
   failed_fetches sm = 3%Z) /\
  (successful_fetches sm = 0%Z /\
   failed_fetches sm = 3%Z /\
   average_aqi sm = 0 /\
   highest_aqi_city sm = None /\
   lowest_aqi_city sm = None).
Proof.
  destruct no_success_report as [Hzero Hthree].
  split.
  - apply (Hzero unit failing_feed ["A"; "B"; "C"] tt). reflexivity.
  - apply (Hthree unit failing_feed "A" "B" "C" tt), failing_feed_ok.
Defined.

End Reports.

(** * Part IV: further properties of the code *)

(** ** aqi_utils.py: bands, labels, colors, validation, display *)

Section MoreClassifier.

Import aqi_utils.

Local Open Scope string_scope.

(** X1.  For each of the six bands of the table, the classifier returns
    that band's label and color exactly for the values the band contains. *)
Theorem category_band_iff (v low high : Q) (label color : string) :
  In (low, high, label, color) config.AQI_CATEGORIES ->
  (get_aqi_category v = (label, color) <-> low <= v <= high).
Proof.
  intros Hin. cbn in Hin.
  repeat (destruct Hin as [Hin | Hin];
          [injection Hin as <- <- <- <-;
           unfold get_aqi_category; simpl;
           repeat (case_le; simpl; try lra);
           (split; [try discriminate; intros _; lra | try lra; reflexivity])
          |]).
  contradiction.
Qed.

Lemma category_band_iff_witness :
  get_aqi_category 75 = ("Moderate", "#ffff00") <-> 51 <= 75 <= 100.
Proof.
  apply category_band_iff. cbn. right. left. reflexivity.
Defined.

Lemma scan_categories_outcomes table v :
  In (scan_categories table v)
     (("Unknown", "gray") :: map (fun b => (snd (fst b), snd b)) table).
Proof.
  induction table as [| [[[low high] label] color] table IH];
    [now left |].
  cbn [scan_categories map fst snd].
  destruct (Qle_bool low v && Qle_bool v high).
  - right. now left.
  - destruct IH as [IH | IH]; [now left | right; now right].
Qed.

(** X2.  The color identifies the category: two readings get the same label
    exactly when they get the same color, the sentinel included. *)
Theorem label_and_color_correspond (v w : Q) :
  get_aqi_label v = get_aqi_label w <-> get_aqi_color v = get_aqi_color w.
Proof.
  unfold get_aqi_label, get_aqi_color, get_aqi_category.
  pose proof (scan_categories_outcomes config.AQI_CATEGORIES v) as Hv.
  pose proof (scan_categories_outcomes config.AQI_CATEGORIES w) as Hw.
  generalize dependent (scan_categories config.AQI_CATEGORIES v).
  generalize dependent (scan_categories config.AQI_CATEGORIES w).
  intros cw Hw cv Hv. cbn in Hv, Hw.
  repeat (destruct Hv as [Hv | Hv]; [| try contradiction]);
    repeat (destruct Hw as [Hw | Hw]; [| try contradiction]);
    rewrite <- Hv, <- Hw; cbn [fst snd];
    split; intros E; try reflexivity; discriminate E.
Qed.

(** X3.  Whatever [validate_aqi] rejects is classified with the sentinel;
    and for an integer reading, [validate_aqi] accepts it exactly when the
    classifier gives it one of the six labels. *)
Theorem validate_matches_classifier :
  (forall v : Q,
     validate_aqi v = false -> get_aqi_category v = ("Unknown", "gray")) /\
  (forall z : Z,
     fmt.float_range z ->
     (validate_aqi (inject_Z z) = true <->
      get_aqi_label (inject_Z z) <> "Unknown")).
Proof.
  split.
  - intros v H. unfold validate_aqi in H.
    apply andb_false_iff in H. destruct H as [H | H];
      apply Qle_bool_false in H;
      [now apply category_below | now apply category_above].
  - intros z _. unfold validate_aqi, get_aqi_label.
    change 0 with (inject_Z 0). change 500 with (inject_Z 500).
    rewrite !Qle_bool_Z, andb_true_iff, !Z.leb_le. split.
    + intros Hz.
      destruct (category_of_integer z Hz)
        as (low & high & label & color & _ & _ & -> & Hl).
      exact Hl.
    + intros Hl.
      destruct (Z_lt_le_dec z 0) as [Hneg | Hnn].
      * exfalso. apply Hl. rewrite category_below; [reflexivity |].
        change 0 with (inject_Z 0). rewrite <- Zlt_Qlt. exact Hneg.
      * destruct (Z_lt_le_dec 500 z) as [Hbig | Hsmall]; [| lia].
        exfalso. apply Hl. rewrite category_above; [reflexivity |].
        change 500 with (inject_Z 500). rewrite <- Zlt_Qlt. exact Hbig.
Qed.

Lemma validate_matches_classifier_witness :
  get_aqi_category 501 = ("Unknown", "gray") /\
  (validate_aqi (inject_Z 120) = true <->
   get_aqi_label (inject_Z 120) <> "Unknown").
Proof.
  destruct validate_matches_classifier as [Hrej Hint].
  split; [apply Hrej; reflexivity |].
  apply Hint. unfold fmt.float_range. vm_compute. reflexivity.
Defined.

(** X4.  For an integer reading, [format_aqi_display] gives the "Invalid"
    line, with the city name as it was passed, exactly when the reading is
    outside [0, 500]; otherwise it gives the "Current AQI" line with the
    capitalized city name, the reading in decimal and the label of the band
    that contains it, which is never "Unknown". *)
Theorem format_aqi_display_cases (aqi : Z) (city_name : string) :
  fmt.float_range aqi ->
  ((aqi < 0 \/ 500 < aqi)%Z ->
   format_aqi_display aqi city_name =
   "❌ Invalid AQI value for " ++ city_name ++ ": " ++ fmt.str_int aqi) /\
  ((0 <= aqi <= 500)%Z ->
   exists low high label color,
     In (low, high, label, color) config.AQI_CATEGORIES /\
     low <= inject_Z aqi <= high /\
     label <> "Unknown" /\
     format_aqi_display aqi city_name =
     "✅ Current AQI in " ++ capitalize city_name ++ ": " ++ fmt.str_int aqi
       ++ " (" ++ label ++ ")").
Proof.
  intros _. unfold format_aqi_display, validate_aqi.
  change 0 with (inject_Z 0). change 500 with (inject_Z 500).
  rewrite !Qle_bool_Z. split.
  - intros Hout.
    assert (E : ((0 <=? aqi) && (aqi <=? 500))%Z = false).
    { apply andb_false_iff. rewrite !Z.leb_gt. lia. }
    now rewrite E.
  - intros Hin.
    assert (E : ((0 <=? aqi) && (aqi <=? 500))%Z = true).
    { apply andb_true_iff. rewrite !Z.leb_le. lia. }
    rewrite E. cbn [negb].
    destruct (category_of_integer aqi Hin)
      as (low & high & label & color & Hband & Hrange & -> & Hl).
    exists low, high, label, color. repeat split; tauto.
Qed.

Lemma format_aqi_display_cases_witness :
  format_aqi_display 612 "delhi" = "❌ Invalid AQI value for delhi: 612" /\
  format_aqi_display 42 "new delhi" = "✅ Current AQI in New delhi: 42 (Good)".
Proof.
  assert (R : forall z, (Z.abs z < 1000)%Z -> fmt.float_range z).
  { intros z Hz. unfold fmt.float_range.
    apply (Z.lt_trans _ _ _ Hz). reflexivity. }
  split.
  - apply (proj1 (format_aqi_display_cases 612 "delhi" (R 612%Z eq_refl))). lia.
  - destruct (proj2 (format_aqi_display_cases 42 "new delhi" (R 42%Z eq_refl)))
      as (low & high & label & color & Hband & Hrange & _ & ->); [lia |].
    cbn in Hband.
    repeat (destruct Hband as [Hband | Hband];
            [injection Hband as <- <- <- <-;
             first [reflexivity
                   | exfalso; destruct Hrange as [H1 H2];
                     unfold Qle in H1, H2; simpl in H1, H2; lia] |]).
    contradiction.
Defined.

End MoreClassifier.

(** ** predictor.py: refusal, shape of the series, statistics *)

Section MorePredictor.

Import predictor.

Local Open Scope string_scope.
Local Open Scope list_scope.

Lemma nonpositive_horizon_refused_aux
    (self : AQIPredictor) (current : Q) (days : Z) :
  (days <= 0)%Z ->
  exists m, predict_aqi self current (Some days) = Raise (ValueError m).
Proof.
  intros Hd. unfold predict_aqi, training_X, range.
  replace (Z.to_nat days) with 0%nat by lia. cbn. eauto.
Qed.

Lemma nonpositive_horizon_message
    (self : AQIPredictor) (current current' : Q) (days : Z) :
  (days <= 0)%Z ->
  predict_aqi self current (Some days) =
  predict_aqi self current' (Some days).
Proof.
  intros Hd. unfold predict_aqi, training_X, training_y, range.
  replace (Z.to_nat days) with 0%nat by lia. reflexivity.
Qed.

(** X5.  A horizon of zero or fewer days is refused: the fit on an empty
    sample raises a [ValueError], which [predict_aqi] and
    [get_prediction_summary] let through. *)
Theorem nonpositive_horizon_refused
    (self : AQIPredictor) (current : Q) (days : Z) :
  (days <= 0)%Z ->
  exists m,
    predict_aqi self current (Some days) = Raise (ValueError m) /\
    get_prediction_summary self current (Some days) = Raise (ValueError m).
Proof.
  intros Hd. destruct (nonpositive_horizon_refused_aux self current days Hd)
    as [m Hm].
  exists m. split; [exact Hm |].
  unfold get_prediction_summary. now rewrite Hm.
Qed.

Lemma nonpositive_horizon_refused_witness :
  exists m,
    predict_aqi (__init__ None) 100 (Some 0%Z) = Raise (ValueError m) /\
    get_prediction_summary (__init__ None) 100 (Some 0%Z)
      = Raise (ValueError m).
Proof. apply nonpositive_horizon_refused. lia. Defined.

(** *** Monotonicity *)

Lemma clip1_monotone (a b : Q) :
  a <= b -> np.clip1 0 500 a <= np.clip1 0 500 b.
Proof.
  intros H.
  destruct (clip1_spec a) as [[Ha ->] | [[Ha ->] | [Ha ->]]];
    destruct (clip1_spec b) as [[Hb ->] | [[Hb ->] | [Hb ->]]]; lra.
Qed.

Lemma sorted_map_seq (R : Q -> Q -> Prop) (f : nat -> Q) (a n : nat) :
  (forall i j, (i <= j)%nat -> R (f i) (f j)) ->
  StronglySorted R (map f (seq a n)).
Proof.
  intros Hf. revert a. induction n as [| n IH]; intros a; [constructor |].
  cbn [seq map]. constructor; [apply IH |].
  apply Forall_forall. intros y Hy.
  apply in_map_iff in Hy. destruct Hy as (j & <- & Hj).
  apply in_seq in Hj. apply Hf. lia.
Qed.

Lemma sorted_Qeq (R : Q -> Q -> Prop) (l l' : list Q) :
  Proper (Qeq ==> Qeq ==> iff) R ->
  Forall2 Qeq l l' -> StronglySorted R l' -> StronglySorted R l.
Proof.
  intros HR H. induction H as [| x x' l l' Hx Hl IH]; intros Hs;
    [constructor |].
  apply StronglySorted_inv in Hs. destruct Hs as [Hs Hall].
  constructor; [now apply IH |].
  clear IH Hs. induction Hl as [| y y' l l' Hy _ IHl]; [constructor |].
  inversion Hall as [| ? ? Hxy Hrest]; subst.
  constructor; [| now apply IHl].
  now rewrite Hx, Hy.
Qed.

Lemma Qge_proper : Proper (Qeq ==> Qeq ==> iff) (fun a b => b <= a).
Proof. intros a a' Ha b b' Hb. now rewrite Ha, Hb. Qed.

Lemma projection_sorted (self : AQIPredictor) (current : Q) (days : Z) :
  (1 <= days)%Z -> 0 <= current ->
  exists predictions,
    predict_aqi self current (Some days) = Return predictions /\
    (0 <= growth_rate self -> StronglySorted Qle predictions) /\
    (growth_rate self <= 0 ->
     StronglySorted (fun a b => b <= a) predictions).
Proof.
  intros Hd Hx.
  destruct (predict_aqi_signal self current days Hd)
    as (predictions & Hrun & Hsig).
  exists predictions. split; [exact Hrun |].
  unfold clamped_signal, range in Hsig. rewrite map_map in Hsig.
  assert (Hidx : forall i j : nat, (i <= j)%nat ->
            inject_Z (Z.of_nat i) <= inject_Z (Z.of_nat j))
    by (intros i j Hij; rewrite <- Zle_Qle; lia).
  split; intros Hg.
  - apply (sorted_Qeq Qle _ _ _ Hsig). apply sorted_map_seq.
    intros i j Hij. apply clip1_monotone. specialize (Hidx i j Hij).
    assert (0 <= (current * growth_rate self)
                 * (inject_Z (Z.of_nat j) - inject_Z (Z.of_nat i)))
      by (apply Qmult_le_0_compat;
          [apply Qmult_le_0_compat; assumption | lra]).
    lra.
  - apply (sorted_Qeq _ _ _ Qge_proper Hsig). apply sorted_map_seq.
    intros i j Hij. apply clip1_monotone. specialize (Hidx i j Hij).
    assert (0 <= (current * - growth_rate self)
                 * (inject_Z (Z.of_nat j) - inject_Z (Z.of_nat i)))
      by (apply Qmult_le_0_compat;
          [apply Qmult_le_0_compat; lra | lra]).
    lra.
Qed.



Lemma projection_length_and_range_aux
    (self : AQIPredictor) (current : Q) (days : Z) :
  (1 <= days)%Z ->
  exists predictions,
    predict_aqi self current (Some days) = Return predictions /\
    Forall (fun v => 0 <= v <= 500) predictions.
Proof.
  intros Hd.
  destruct (predict_aqi_signal self current days Hd)
    as (predictions & Hrun & Hsig).
  exists predictions. split; [exact Hrun |].
  apply (Forall2_Qeq_clip_range _ (training_y self current days)).
  now rewrite <- clamped_signal_as_clip.
Qed.

(** *** Saturation *)

Lemma Forall2_Qeq_map_const {A} (f : A -> Q) (c : Q) (l : list A)
    (predictions : list Q) :
  Forall2 Qeq predictions (map f l) ->
  (forall a, In a l -> f a == c) ->
  Forall (fun p => p == c) predictions.
Proof.
  revert predictions.
  induction l as [| a l IH]; intros predictions H Hf;
    inversion H as [| p ? ps ? Hp Hps]; subst; constructor.
  - rewrite Hp. apply Hf. now left.
  - apply IH; [exact Hps |]. intros a' Ha'. apply Hf. now right.
Qed.

Lemma Qnat_nonneg (i : nat) : 0 <= inject_Z (Z.of_nat i).
Proof. change 0 with (inject_Z 0). rewrite <- Zle_Qle. lia. Qed.



(** *** Statistics of the summary *)

Lemma np_min_spec (a0 : Q) (a : list Q) :
  In (np.min a0 a) (a0 :: a) /\ Forall (fun x => np.min a0 a <= x) (a0 :: a).
Proof.
  revert a0. induction a as [| x a IH]; intros a0.
  - split; [now left | constructor; [apply Qle_refl | constructor]].
  - change (np.min a0 (x :: a))
      with (np.min (if Qltb x a0 then x else a0) a).
    destruct (IH (if Qltb x a0 then x else a0)) as [Hin Hall].
    inversion Hall as [| ? ? Hm Hrest]; subst.
    case_lt.
    + split.
      * destruct Hin as [<- | Hin]; [right; now left | right; now right].
      * constructor; [lra |]. now constructor.
    + split.
      * destruct Hin as [<- | Hin]; [now left | right; now right].
      * constructor; [exact Hm |]. constructor; [lra | exact Hrest].
Qed.

Lemma np_max_spec (a0 : Q) (a : list Q) :
  In (np.max a0 a) (a0 :: a) /\ Forall (fun x => x <= np.max a0 a) (a0 :: a).
Proof.
  revert a0. induction a as [| x a IH]; intros a0.
  - split; [now left | constructor; [apply Qle_refl | constructor]].
  - change (np.max a0 (x :: a))
      with (np.max (if Qltb a0 x then x else a0) a).
    destruct (IH (if Qltb a0 x then x else a0)) as [Hin Hall].
    inversion Hall as [| ? ? Hm Hrest]; subst.
    case_lt.
    + split.
      * destruct Hin as [<- | Hin]; [right; now left | right; now right].
      * constructor; [lra |]. now constructor.
    + split.
      * destruct Hin as [<- | Hin]; [now left | right; now right].
      * constructor; [exact Hm |]. constructor; [lra | exact Hrest].
Qed.

Lemma sum_between (lo hi : Q) (l : list Q) :
  Forall (fun x => lo <= x <= hi) l ->
  len l * lo <= py.sum l <= len l * hi.
Proof.
  induction 1 as [| x l Hx _ IH].
  - unfold py.sum, len. cbn [fold_left List.length Z.of_nat].
    change (inject_Z 0) with 0. lra.
  - rewrite sum_cons, len_cons. lra.
Qed.

Lemma mean_between (lo hi : Q) (l : list Q) :
  l <> [] -> Forall (fun x => lo <= x <= hi) l ->
  lo <= np.mean l <= hi.
Proof.
  intros Hne Hall. unfold np.mean.
  assert (Hpos : 0 < len l)
    by (destruct l; [congruence | apply len_cons_pos]).
  destruct (sum_between lo hi l Hall) as [Hlo Hhi]. split.
  - apply Qle_shift_div_l; [exact Hpos | lra].
  - apply Qle_shift_div_r; [exact Hpos | lra].
Qed.

Lemma summary_fields (self : AQIPredictor) (current : Q) (days : option Z)
    (first : Q) (rest : list Q) :
  predict_aqi self current days = Return (first :: rest) ->
  get_prediction_summary self current days =
  Return {| predictions := first :: rest;
            min_predicted := np.min first rest;
            max_predicted := np.max first rest;
            avg_predicted := np.mean (first :: rest);
            trend := tag_of (Qltb first (last rest first)) |}.
Proof.
  intros Hrun. unfold get_prediction_summary. now rewrite Hrun.
Qed.



Lemma np_min_first (a0 : Q) (a : list Q) :
  Forall (fun x => a0 <= x) a -> np.min a0 a = a0.
Proof.
  induction 1 as [| x a Hx _ IH]; [reflexivity |].
  change (np.min a0 (x :: a)) with (np.min (if Qltb x a0 then x else a0) a).
  case_lt; [lra | exact IH].
Qed.

Lemma last_default_Qeq (l : list Q) (d d' : Q) :
  d == d' -> last l d == last l d'.
Proof.
  intros Hd. destruct l as [| x l]; [exact Hd |].
  rewrite !last_cons. reflexivity.
Qed.

Lemma np_max_last (a0 : Q) (a : list Q) :
  StronglySorted Qle (a0 :: a) -> np.max a0 a == last a a0.
Proof.
  revert a0. induction a as [| x a IH]; intros a0 Hs; [reflexivity |].
  change (np.max a0 (x :: a)) with (np.max (if Qltb a0 x then x else a0) a).
  rewrite last_cons.
  apply StronglySorted_inv in Hs. destruct Hs as [Hs Hall].
  inversion Hall as [| ? ? Hx Hrest]; subst.
  case_lt.
  - now apply IH.
  - assert (Hxa : x == a0) by lra.
    rewrite (last_default_Qeq a x a0 Hxa). apply IH.
    apply StronglySorted_inv in Hs. destruct Hs as [Hs' _].
    now constructor.
Qed.



(** *** The average when nothing is clamped *)

Lemma sum_app_one (l : list Q) (a : Q) : py.sum (l ++ [a]) == py.sum l + a.
Proof.
  induction l as [| x l IH]; cbn [app].
  - rewrite sum_cons. unfold py.sum. simpl. ring.
  - rewrite !sum_cons, IH. ring.
Qed.

Lemma sum_signal (x g : Q) (n : nat) :
  2 * py.sum (map (fun i : nat => x * (1 + g * inject_Z (Z.of_nat i)))
                  (seq 0 n)) ==
  2 * inject_Z (Z.of_nat n) * x
  + x * g * inject_Z (Z.of_nat n) * (inject_Z (Z.of_nat n) - 1).
Proof.
  induction n as [| n IH].
  - unfold py.sum. cbn [seq map fold_left Z.of_nat].
    change (inject_Z 0) with 0. ring.
  - rewrite seq_S, map_app. cbn [map Nat.add].
    rewrite sum_app_one, Nat2Z.inj_succ. unfold Z.succ.
    rewrite inject_Z_plus. change (inject_Z 1) with 1.
    rewrite Qmult_plus_distr_r, IH. ring.
Qed.

Lemma Forall2_Qeq_length (l l' : list Q) :
  Forall2 Qeq l l' -> len l = len l'.
Proof. intros H. unfold len. now rewrite (Forall2_length H). Qed.



(** *** Several cities at once *)

Lemma dict_set_fresh {V} (d : list (string * V)) (k : string) (v : V) :
  ~ In k (map fst d) -> dict_set d k v = d ++ [(k, v)].
Proof.
  induction d as [| [k' v'] d IH]; intros Hk; [reflexivity |].
  cbn [dict_set app]. cbn [map fst] in Hk.
  destruct (String.eqb k' k) eqn:E.
  - apply String.eqb_eq in E. exfalso. apply Hk. now left.
  - rewrite IH; [reflexivity |]. intros H. apply Hk. now right.
Qed.

Lemma predict_city_step (self : AQIPredictor) (days : option Z)
    (d : list (string * option (list Q))) (printed : list string)
    (item : string * option Q) :
  predict_city self days (d, printed) item =
  (dict_set d (fst item) (prediction_of self days (snd item)),
   printed ++ prediction_warning self days item).
Proof.
  destruct item as [city [v |]]; unfold predict_city, prediction_of,
    prediction_warning; cbn [fst snd].
  - destruct (predict_aqi self v days); [now rewrite app_nil_r | reflexivity].
  - now rewrite app_nil_r.
Qed.

Lemma predict_cities_fold (self : AQIPredictor) (days : option Z)
    (items : list (string * option Q))
    (d : list (string * option (list Q))) (printed : list string) :
  NoDup (map fst d ++ map fst items) ->
  fold_left (predict_city self days) items (d, printed) =
  (d ++ map (fun item => (fst item, prediction_of self days (snd item)))
        items,
   printed ++ flat_map (prediction_warning self days) items).
Proof.
  revert d printed. induction items as [| item items IH];
    intros d printed Hnd.
  - cbn. now rewrite !app_nil_r.
  - cbn [fold_left map flat_map]. rewrite predict_city_step.
    assert (Hfresh : ~ In (fst item) (map fst d)).
    { cbn [map] in Hnd. apply NoDup_remove_2 in Hnd.
      intros H. apply Hnd. apply in_or_app. now left. }
    rewrite (dict_set_fresh _ _ _ Hfresh), IH.
    + now rewrite <- !app_assoc.
    + rewrite map_app. cbn [map fst]. rewrite <- app_assoc. exact Hnd.
Qed.

Lemma predict_aqi_horizon (self : AQIPredictor) (v : Q) (days : option Z) :
  predict_aqi self v days = predict_aqi self v (Some (horizon days)).
Proof. now destruct days. Qed.

Lemma predict_multiple_cities_entries (self : AQIPredictor)
    (city_aqi_dict : list (string * option Q)) (days : option Z) :
  NoDup (map fst city_aqi_dict) ->
  (1 <= horizon days)%Z ->
  Forall2 (fun item entry =>
             fst entry = fst item /\
             match snd item with
             | None => snd entry = None
             | Some v => exists p, predict_aqi self v days = Return p /\
                                   snd entry = Some p
             end)
          city_aqi_dict
          (fst (predict_multiple_cities self city_aqi_dict days)) /\
  snd (predict_multiple_cities self city_aqi_dict days) = [].
Proof.
  intros Hnd Hd. unfold predict_multiple_cities.
  rewrite predict_cities_fold by exact Hnd. cbn [fst snd app].
  split.
  - clear Hnd. induction city_aqi_dict as [| [city [v |]] items IH];
      cbn [map]; constructor; try exact IH; cbn [fst snd];
      (split; [reflexivity |]); [| reflexivity].
    unfold prediction_of. rewrite predict_aqi_horizon.
    destruct (predict_aqi_signal self v _ Hd) as (p & -> & _).
    now exists p.
  - clear Hnd. induction city_aqi_dict as [| [city [v |]] items IH];
      [reflexivity | |]; cbn [flat_map]; rewrite IH;
      unfold prediction_warning; cbn [fst snd]; [| reflexivity].
    rewrite predict_aqi_horizon.
    now destruct (predict_aqi_signal self v _ Hd) as (p & -> & _).
Qed.



(** X12.  With a horizon of zero or fewer days, [predict_multiple_cities]
    still returns (it does not raise): every city of the dictionary is kept,
    in order, with [None], and one warning naming the city is printed for
    each city that had a reading. *)
Theorem predict_multiple_cities_refused (self : AQIPredictor)
    (city_aqi_dict : list (string * option Q)) (days : option Z) :
  NoDup (map fst city_aqi_dict) ->
  (horizon days <= 0)%Z ->
  exists m,
    fst (predict_multiple_cities self city_aqi_dict days) =
      map (fun item => (fst item, None)) city_aqi_dict /\
    snd (predict_multiple_cities self city_aqi_dict days) =
      flat_map (fun item =>
                  match snd item with
                  | Some _ => ["Warning: Could not predict AQI for "
                                 ++ fst item ++ ": " ++ m]%string
                  | None => []
                  end) city_aqi_dict.
Proof.
  intros Hnd Hd.
  destruct (nonpositive_horizon_refused_aux self 0 (horizon days) Hd)
    as [m Hm].
  exists m. unfold predict_multiple_cities.
  rewrite predict_cities_fold by exact Hnd. cbn [fst snd app].
  assert (Hraise : forall v, predict_aqi self v days = Raise (ValueError m)).
  { intros v. rewrite predict_aqi_horizon.
    destruct (nonpositive_horizon_refused_aux self v (horizon days) Hd)
      as [m' Hm'].
    rewrite Hm'. f_equal. f_equal.
    rewrite (nonpositive_horizon_message self v 0 (horizon days) Hd) in Hm'.
    rewrite Hm in Hm'. now injection Hm'. }
  split.
  - apply map_ext. intros [city [v |]]; unfold prediction_of; cbn [fst snd];
      [now rewrite Hraise | reflexivity].
  - clear Hnd. induction city_aqi_dict as [| [city [v |]] items IH];
      [reflexivity | |]; cbn [flat_map]; rewrite IH;
      unfold prediction_warning; cbn [fst snd]; [| reflexivity].
    now rewrite Hraise.
Qed.

Lemma predict_multiple_cities_refused_witness :
  exists m,
    fst (predict_multiple_cities (__init__ None)
           [("Delhi", Some 180); ("Atlantis", None)] (Some 0%Z)) =
      map (fun item => (fst item, None))
          [("Delhi", Some 180); ("Atlantis", None)] /\
    snd (predict_multiple_cities (__init__ None)
           [("Delhi", Some 180); ("Atlantis", None)] (Some 0%Z)) =
      flat_map (fun item =>
                  match snd item with
                  | Some _ => ["Warning: Could not predict AQI for "
                                 ++ fst item ++ ": " ++ m]%string
                  | None => []
                  end) [("Delhi", Some 180); ("Atlantis", None)].
Proof.
  apply predict_multiple_cities_refused.
  - repeat constructor; cbn; intuition discriminate.
  - cbn. lia.
Defined.

End MorePredictor.

(** ** aqi_app.py: the success record and the shape of the report *)

Section MoreReports.

Import predictor aqi_app.

Local Open Scope string_scope.
Local Open Scope list_scope.



(** *** Keys of the report *)

Lemma dict_set_keys_present {V} (d : list (string * V)) k v :
  In k (map fst d) -> map fst (dict_set d k v) = map fst d.
Proof.
  induction d as [| [k' v'] d IH]; intros Hin; [destruct Hin |].
  cbn [dict_set]. destruct (String.eqb k' k) eqn:E; [reflexivity |].
  cbn [map fst]. f_equal. apply IH.
  destruct Hin as [Hin | Hin]; [| exact Hin].
  cbn [fst] in Hin. apply String.eqb_neq in E. congruence.
Qed.

Lemma dict_set_keys_fresh {V} (d : list (string * V)) k v :
  ~ In k (map fst d) -> map fst (dict_set d k v) = map fst d ++ [k].
Proof.
  intros H. rewrite (dict_set_fresh d k v H), map_app. reflexivity.
Qed.

Lemma fold_store_keys (outs : list (string * result Q))
    (d : list (string * city_info)) :
  NoDup (map fst d) ->
  NoDup (map fst (fold_left store outs d)) /\
  (forall c, In c (map fst (fold_left store outs d)) <->
             In c (map fst d) \/ In c (map fst outs)) /\
  (NoDup (map fst d ++ map fst outs) ->
   map fst (fold_left store outs d) = map fst d ++ map fst outs).
Proof.
  revert d. induction outs as [| [c r] outs IH]; intros d Hd.
  - cbn [fold_left map]. split; [exact Hd |]. split.
    + intros c. cbn [In map].
      split; [intros H; now left | intros [H | []]; exact H].
    + intros _. cbn [map]. now rewrite app_nil_r.
  - cbn [fold_left map fst]. unfold store at 2 4 6. cbn [fst snd].
    set (d' := dict_set d c (build_info c r)).
    assert (Hkeys : map fst d' = map fst d /\ In c (map fst d) \/
                    map fst d' = map fst d ++ [c] /\ ~ In c (map fst d)).
    { destruct (in_dec string_dec c (map fst d)) as [Hin | Hout].
      - left. split; [now apply dict_set_keys_present | exact Hin].
      - right. split; [now apply dict_set_keys_fresh | exact Hout]. }
    assert (Hd' : NoDup (map fst d')).
    { destruct Hkeys as [[-> _] | [-> Hout]]; [exact Hd |].
      apply NoDup_app; [exact Hd | repeat constructor; intros [] |].
      intros x Hx [<- | []]. contradiction. }
    destruct (IH d' Hd') as (IH1 & IH2 & IH3).
    split; [exact IH1 |]. split.
    + intros x. rewrite IH2.
      destruct Hkeys as [[-> Hin] | [-> Hout]].
      * split; [intros [H | H]; [now left | right; now right] |].
        intros [H | [<- | H]]; [now left | now left | now right].
      * rewrite in_app_iff. cbn [In]. split.
        -- intros [[H | [<- | []]] | H];
             [now left | right; now left | right; now right].
        -- intros [H | [<- | H]];
             [left; now left | left; right; now left | now right].
    + intros Hnd.
      destruct Hkeys as [[_ Hin] | [E Hout]].
      * exfalso. apply NoDup_remove_2 in Hnd. apply Hnd.
        apply in_or_app. now left.
      * rewrite IH3; rewrite E, <- app_assoc; [reflexivity | exact Hnd].
Qed.

(** X14.  The per-city collection of the report has one entry per distinct
    requested city and no other; when no city is requested twice, its keys
    are the requested cities in input order. *)
Theorem report_keys
    (World : Type) (fetch_aqi : string -> World -> result Q * World)
    (cs : list string) (w : World) :
  let keys := map fst (cities (fst (get_multiple_cities_report
                                      fetch_aqi cs w))) in
  NoDup keys /\
  (forall c, In c keys <-> In c cs) /\
  (NoDup cs -> keys = cs).
Proof.
  cbv zeta. rewrite report_outcomes. cbn [fst cities].
  pose proof (fetch_all_cities World fetch_aqi cs w) as Hcs.
  destruct (fold_store_keys (fst (fetch_all fetch_aqi cs w)) [])
    as (H1 & H2 & H3); [constructor |].
  rewrite Hcs in *. cbn [map app] in *.
  split; [exact H1 |]. split; [| exact H3].
  intros c. rewrite H2. cbn [In]. tauto.
Qed.

Lemma report_keys_witness :
  map fst (cities (fst (get_multiple_cities_report scenario_feed
                          ["A"; "B"; "C"] 0%nat))) = ["A"; "B"; "C"].
Proof.
  apply (report_keys nat scenario_feed ["A"; "B"; "C"] 0%nat).
  repeat constructor; cbn; intuition discriminate.
Defined.

(** *** A city requested more than once *)

Lemma fold_store_last (before after : list (string * result Q))
    (c : string) (r : result Q) (d : list (string * city_info)) :
  ~ In c (map fst after) ->
  dict_get (fold_left store (before ++ (c, r) :: after) d) c =
  Some (build_info c r).
Proof.
  intros Hlast. rewrite fold_left_app. cbn [fold_left].
  rewrite (proj2 (fold_store_get after _ c) Hlast).
  unfold store. cbn [fst snd]. apply dict_get_set_same.
Qed.



(** *** The average and the extremes *)

Lemma first_max_bounds {A} (key : A -> Q) (l : list A) (h : A) :
  first_max key l h -> In h l /\ Forall (fun x => key x <= key h) l.
Proof.
  intros (before & after & -> & Hb & Ha). split.
  - apply in_or_app. right. now left.
  - apply Forall_app. split.
    + eapply Forall_impl; [| exact Hb]. cbn. intros x Hx. lra.
    + constructor; [apply Qle_refl | exact Ha].
Qed.

Lemma first_min_bounds {A} (key : A -> Q) (l : list A) (h : A) :
  first_min key l h -> In h l /\ Forall (fun x => key h <= key x) l.
Proof.
  intros (before & after & -> & Hb & Ha). split.
  - apply in_or_app. right. now left.
  - apply Forall_app. split.
    + eapply Forall_impl; [| exact Hb]. cbn. intros x Hx. lra.
    + constructor; [apply Qle_refl | exact Ha].
Qed.



End MoreReports.

(** ** data_fetcher.py: several cities, and one request *)

Section MoreFetcher.

Import predictor aqi_app data_fetcher.

Local Open Scope string_scope.
Local Open Scope list_scope.

Lemma fold_dict_set_fresh {A V} (key : A -> string) (val : A -> V)
    (items : list A) (d : list (string * V)) :
  NoDup (map fst d ++ map key items) ->
  fold_left (fun d a => dict_set d (key a) (val a)) items d =
  d ++ map (fun a => (key a, val a)) items.
Proof.
  revert d. induction items as [| a items IH]; intros d Hnd.
  - cbn. now rewrite app_nil_r.
  - cbn [fold_left map].
    assert (Hfresh : ~ In (key a) (map fst d)).
    { cbn [map] in Hnd. apply NoDup_remove_2 in Hnd.
      intros H. apply Hnd. apply in_or_app. now left. }
    rewrite (dict_set_fresh _ _ _ Hfresh), IH.
    + now rewrite <- app_assoc.
    + rewrite map_app. cbn [map fst]. rewrite <- app_assoc. exact Hnd.
Qed.

Lemma dict_set_keys_In {V} (d : list (string * V)) k v c :
  In c (map fst (dict_set d k v)) <-> In c (map fst d) \/ c = k.
Proof.
  induction d as [| [k' v'] d IH]; cbn [dict_set map fst In].
  - split; [intros [<- | []]; now right | intros [[] | ->]; now left].
  - destruct (String.eqb k' k) eqn:E; cbn [map fst In].
    + apply String.eqb_eq in E. subst k'. split; [tauto |].
      intros [[H | H] | ->]; tauto.
    + rewrite IH. tauto.
Qed.

Lemma fold_dict_set_keys {A V} (key : A -> string) (val : A -> V)
    (items : list A) (d : list (string * V)) (c : string) :
  In c (map fst (fold_left (fun d a => dict_set d (key a) (val a)) items d))
  <-> In c (map fst d) \/ In c (map key items).
Proof.
  revert d. induction items as [| a items IH]; intros d; cbn [fold_left map In].
  - tauto.
  - rewrite IH, dict_set_keys_In. intuition (subst; auto).
Qed.

Section WithFeed.

Variable World : Type.
Variable self_fetch_aqi : string -> World -> result Q * World.

Lemma fetch_city_step city d printed w :
  fetch_city self_fetch_aqi city (d, printed) w =
  ((dict_set d city (fetched_value (fst (self_fetch_aqi city w))),
    printed ++ fetch_warning (city, fst (self_fetch_aqi city w))),
   snd (self_fetch_aqi city w)).
Proof.
  unfold fetch_city, fetch_warning, fetched_value.
  destruct (self_fetch_aqi city w) as [[v | e] w']; cbn [fst snd];
    [now rewrite app_nil_r | reflexivity].
Qed.

Lemma fetch_cities_outcomes cities d printed w :
  fetch_cities self_fetch_aqi cities (d, printed) w =
  (let outs := fst (fetch_all self_fetch_aqi cities w) in
   (fold_left (fun d cr => dict_set d (fst cr) (fetched_value (snd cr)))
              outs d,
    printed ++ flat_map fetch_warning outs),
   snd (fetch_all self_fetch_aqi cities w)).
Proof.
  revert d printed w. induction cities as [| city cities IH];
    intros d printed w.
  - cbn. now rewrite app_nil_r.
  - cbn [fetch_cities fetch_all]. rewrite fetch_city_step, IH.
    destruct (self_fetch_aqi city w) as [r w1]. cbn [fst snd].
    destruct (fetch_all self_fetch_aqi cities w1) as [outs w2].
    cbn [fst snd fold_left flat_map]. now rewrite <- app_assoc.
Qed.

End WithFeed.

(** X17.  [fetch_multiple_cities] never raises: it fetches every requested
    city once, in order; the returned dictionary has exactly the requested
    cities as keys; one warning naming the city is printed per failed
    fetch; and when no city is requested twice the dictionary lists the
    cities in input order, each with its reading, or [None] when its fetch
    failed. *)
Theorem fetch_multiple_cities_outcomes
    (World : Type) (self_fetch_aqi : string -> World -> result Q * World)
    (cities : list string) (w : World) :
  let outs := fst (fetch_all self_fetch_aqi cities w) in
  let run := fetch_multiple_cities self_fetch_aqi cities w in
  snd run = snd (fetch_all self_fetch_aqi cities w) /\
  snd (fst run) = flat_map fetch_warning outs /\
  (forall c, In c (map fst (fst (fst run))) <-> In c cities) /\
  (NoDup cities ->
   fst (fst run) = map (fun cr => (fst cr, fetched_value (snd cr))) outs).
Proof.
  cbv zeta. unfold fetch_multiple_cities. rewrite fetch_cities_outcomes.
  cbv zeta. cbn [fst snd app].
  pose proof (fetch_all_cities World self_fetch_aqi cities w) as Hcs.
  split; [reflexivity |]. split; [reflexivity |]. split.
  - intros c.
    rewrite (fold_dict_set_keys fst (fun cr => fetched_value (snd cr))), Hcs.
    cbn [map In]. tauto.
  - intros Hnd.
    rewrite (fold_dict_set_fresh fst (fun cr => fetched_value (snd cr)));
      [reflexivity |].
    cbn [map app]. now rewrite Hcs.
Qed.

Lemma fetch_multiple_cities_outcomes_witness :
  fst (fst (fetch_multiple_cities scenario_feed ["A"; "B"; "C"] 0%nat)) =
  map (fun cr => (fst cr, fetched_value (snd cr)))
      (fst (fetch_all scenario_feed ["A"; "B"; "C"] 0%nat)).
Proof.
  apply (fetch_multiple_cities_outcomes nat scenario_feed
           ["A"; "B"; "C"] 0%nat).
  repeat constructor; cbn; intuition discriminate.
Defined.

Lemma Forall2_map_left {A B C} (P : B -> C -> Prop) (g : A -> B)
    (l : list A) (m : list C) :
  Forall2 P (map g l) m -> Forall2 (fun a c => P (g a) c) l m.
Proof.
  revert m. induction l as [| a l IH]; intros m H;
    inversion H; subst; constructor; auto.
Qed.



(** *** One request *)

Section OneRequest.

Import json requests.

Variable World : Type.
Variable requests_get : string -> World -> outcome Response * World.
Variable attribute_error_message : value -> string.
Variable type_error_message : value -> string.

Lemma fetch_aqi_unfold self city w :
  fetch_aqi requests_get attribute_error_message type_error_message
            self city w =
  (handled city
     (obind (fst (requests_get (request_url self city) w))
            (attempt_on attribute_error_message type_error_message city)),
   snd (requests_get (request_url self city) w)).
Proof.
  unfold fetch_aqi, request_url, handled, attempt_on.
  destruct (requests_get _ w) as [got w1]. cbn [fst snd].
  match goal with
  | |- match ?a with _ => _ end = (match ?b with _ => _ end, _) =>
      change b with a; destruct a as [v | e]; [reflexivity |]
  end.
  now destruct (cls e).
Qed.

Lemma handled_ok city r v : handled city r = Ok v <-> r = Ok v.
Proof.
  unfold handled. destruct r as [v' | e]; [tauto |].
  destruct (cls e); split; discriminate.
Qed.

Lemma handled_never city r e :
  handled city r = Raised e ->
  cls e <> RequestException /\ cls e <> KeyError.
Proof.
  unfold handled. destruct r as [v | e']; [discriminate |].
  destruct (cls e') eqn:E; intros H; injection H as <-;
    cbn [cls network_error format_error]; try rewrite E;
    split; discriminate.
Qed.

Lemma attempt_on_ok city response v :
  attempt_on attribute_error_message type_error_message city response
    = Ok v <->
  exists members data_members,
    status_code response = 200%Z /\
    body response = Ok (Object members) /\
    dict_get members "status" = Some (Str "ok") /\
    dict_get members "data" = Some (Object data_members) /\
    dict_get data_members "aqi" = Some v.
Proof.
  unfold attempt_on. split.
  - destruct (body response) as [data | e]; [| discriminate].
    cbn [obind].
    destruct (status_code response =? 200)%Z eqn:Hcode;
      cbn [negb obind]; [| discriminate].
    apply Z.eqb_eq in Hcode.
    destruct data as [| b | q | s | items | members];
      cbn [method_get obind]; try discriminate.
    destruct (dict_get members "status") as [[| b | q | s | items | ms] |]
      eqn:Hstatus; cbn [differs_from_ok]; try discriminate.
    destruct (String.eqb s "ok") eqn:Hok; cbn [negb]; [| discriminate].
    apply String.eqb_eq in Hok. subst s.
    cbn [getitem obind].
    destruct (dict_get members "data")
      as [[| b | q | s | items | data_members] |] eqn:Hdata;
      cbn [obind getitem]; try discriminate.
    destruct (dict_get data_members "aqi") as [aqi |] eqn:Haqi;
      [| discriminate].
    intros H. injection H as <-.
    exists members, data_members. auto.
  - intros (members & data_members & Hcode & -> & Hstatus & Hdata & Haqi).
    rewrite Hcode. cbn [obind Z.eqb Pos.eqb negb method_get].
    rewrite Hstatus. cbn [differs_from_ok String.eqb Ascii.eqb Bool.eqb
                          andb negb getitem obind].
    rewrite Hdata. cbn [obind getitem]. now rewrite Haqi.
Qed.

(** X19.  [fetch_aqi] returns a value exactly when the request to
    [base_url + city + "/?token=" + api_key] succeeded with status 200 and
    a JSON object whose ["status"] is the string "ok" and whose ["data"] is
    an object with an ["aqi"] member; the value returned is that member. *)
Theorem fetch_aqi_returns (self : AQIDataFetcher) (city : string)
    (w w' : World) (v : value) :
  fetch_aqi requests_get attribute_error_message type_error_message
            self city w = (Ok v, w') <->
  exists response members data_members,
    requests_get (request_url self city) w = (Ok response, w') /\
    status_code response = 200%Z /\
    body response = Ok (Object members) /\
    dict_get members "status" = Some (Str "ok") /\
    dict_get members "data" = Some (Object data_members) /\
    dict_get data_members "aqi" = Some v.
Proof.
  rewrite fetch_aqi_unfold.
  destruct (requests_get (request_url self city) w) as [got w1].
  cbn [fst snd]. split.
  - intros H. injection H as H <-. apply handled_ok in H.
    destruct got as [response | e]; [| discriminate].
    cbn [obind] in H. apply attempt_on_ok in H.
    destruct H as (members & data_members & H).
    exists response, members, data_members. tauto.
  - intros (response & members & data_members & Hget & H).
    injection Hget as -> ->. f_equal. apply handled_ok.
    cbn [obind]. apply attempt_on_ok. eauto.
Qed.

(** X20.  Whatever the request does, [fetch_aqi] never lets a
    [RequestException] or a [KeyError] out: the exception it raises is of
    neither class. *)
Theorem fetch_aqi_never_raises_raw (self : AQIDataFetcher) (city : string)
    (w w' : World) (e : exc) :
  fetch_aqi requests_get attribute_error_message type_error_message
            self city w = (Raised e, w') ->
  cls e <> RequestException /\ cls e <> KeyError.
Proof.
  rewrite fetch_aqi_unfold. intros H. injection H as H _.
  exact (handled_never _ _ _ H).
Qed.

(** X21.  The causes of failure and their messages: an exception of the
    HTTP library, from the request or from decoding the body, becomes the
    "Network error" exception with its text; a decoded answer whose status
    code is not 200 becomes the "Failed to fetch" exception whatever its
    body is; and an object with status "ok" but no ["data"] member becomes
    the "Unexpected API response format" exception naming the key. *)
Theorem fetch_aqi_failures (self : AQIDataFetcher) (city : string)
    (w w' : World) :
  (forall m,
     requests_get (request_url self city) w =
       (Raised {| cls := RequestException; message := m |}, w') ->
     fetch_aqi requests_get attribute_error_message type_error_message
               self city w = (Raised (network_error city m), w')) /\
  (forall code m,
     requests_get (request_url self city) w =
       (Ok {| status_code := code;
              body := Raised {| cls := RequestException; message := m |} |},
        w') ->
     fetch_aqi requests_get attribute_error_message type_error_message
               self city w = (Raised (network_error city m), w')) /\
  (forall code data,
     requests_get (request_url self city) w =
       (Ok {| status_code := code; body := Ok data |}, w') ->
     code <> 200%Z ->
     fetch_aqi requests_get attribute_error_message type_error_message
               self city w = (Raised (refusal city), w')) /\
  (forall members,
     requests_get (request_url self city) w =
       (Ok {| status_code := 200; body := Ok (Object members) |}, w') ->
     dict_get members "status" = Some (Str "ok") ->
     dict_get members "data" = None ->
     fetch_aqi requests_get attribute_error_message type_error_message
               self city w = (Raised (format_error city "'data'"), w')).
Proof.
  repeat split.
  - intros m Hget. rewrite fetch_aqi_unfold, Hget. reflexivity.
  - intros code m Hget. rewrite fetch_aqi_unfold, Hget. reflexivity.
  - intros code data Hget Hcode. rewrite fetch_aqi_unfold, Hget.
    cbn [fst snd obind]. unfold attempt_on.
    cbn [body status_code obind].
    apply Z.eqb_neq in Hcode. rewrite Hcode. reflexivity.
  - intros members Hget Hstatus Hdata. rewrite fetch_aqi_unfold, Hget.
    cbn [fst snd obind]. unfold attempt_on.
    cbn [body status_code obind Z.eqb Pos.eqb negb method_get].
    rewrite Hstatus. cbn [differs_from_ok String.eqb Ascii.eqb Bool.eqb
                          andb negb getitem obind].
    rewrite Hdata. reflexivity.
Qed.

End OneRequest.

Lemma fetch_aqi_returns_witness :
  fetch_aqi (answering {| requests.status_code := 200;
                          requests.body := requests.Ok reading_42 |})
            no_wording no_wording (data_fetcher.__init__ None) "delhi" tt
  = (requests.Ok (json.Number 42), tt).
Proof.
  apply fetch_aqi_returns.
  exists {| requests.status_code := 200;
            requests.body := requests.Ok reading_42 |},
         [("status", json.Str "ok");
          ("data", json.Object [("aqi", json.Number 42)])],
         [("aqi", json.Number 42)].
  repeat split.
Defined.

Lemma fetch_aqi_never_raises_raw_witness :
  requests.cls (network_error "delhi" "Connection refused")
    <> requests.RequestException /\
  requests.cls (network_error "delhi" "Connection refused")
    <> requests.KeyError.
Proof.
  apply (fetch_aqi_never_raises_raw unit unreachable no_wording no_wording
           (data_fetcher.__init__ None) "delhi" tt tt).
  reflexivity.
Defined.

Lemma fetch_aqi_failures_witness :
  fetch_aqi unreachable no_wording no_wording
            (data_fetcher.__init__ None) "delhi" tt
    = (requests.Raised (network_error "delhi" "Connection refused"), tt) /\
  fetch_aqi (answering {| requests.status_code := 404;
                          requests.body := requests.Ok (json.Str "gone") |})
            no_wording no_wording (data_fetcher.__init__ None) "delhi" tt
    = (requests.Raised (refusal "delhi"), tt) /\
  fetch_aqi (answering {| requests.status_code := 200;
                          requests.body :=
                            requests.Ok (json.Object
                                           [("status", json.Str "ok")]) |})
            no_wording no_wording (data_fetcher.__init__ None) "delhi" tt
    = (requests.Raised (format_error "delhi" "'data'"), tt).
Proof.
  split; [| split].
  - apply (proj1 (fetch_aqi_failures unit unreachable no_wording no_wording
                    (data_fetcher.__init__ None) "delhi" tt tt)).
    reflexivity.
  - apply (proj1 (proj2 (proj2
             (fetch_aqi_failures unit
                (answering {| requests.status_code := 404;
                              requests.body :=
                                requests.Ok (json.Str "gone") |})
                no_wording no_wording
                (data_fetcher.__init__ None) "delhi" tt tt)))
             404%Z (json.Str "gone")).
    + reflexivity.
    + discriminate.
  - apply (proj2 (proj2 (proj2
             (fetch_aqi_failures unit
                (answering {| requests.status_code := 200;
                              requests.body :=
                                requests.Ok (json.Object
                                               [("status", json.Str "ok")])
                           |})
                no_wording no_wording
                (data_fetcher.__init__ None) "delhi" tt tt)))
             [("status", json.Str "ok")]); reflexivity.
Defined.

End MoreFetcher.
